(** * create_snapshot_gui: the snapshot orchestration of [app.py]

    A shallow embedding of the orchestration code of [app.py] (inventory
    resolution, the retrying command executor, the subscription grouper, the
    snapshot worker and the orchestrator), followed by the properties of the
    specification that concern them.

    Python text is modelled by [string]; a character is read as the code
    point of the same number (U+0000 to U+00FF).  Python integers are [Z]. *)

From Stdlib Require Import String Ascii List ZArith Lia Bool Arith Permutation.
From Stdlib Require QArith.
From Stdlib Require Import DecimalString.
Import ListNotations.

Open Scope list_scope.
Open Scope string_scope.

Set Warnings "-register-all".

(** ** Python's text primitives used by [app.py] *)

Module PyStr.

(** [str.isspace] on one character of the range U+0000 to U+00FF. *)
Definition is_space (c : ascii) : bool :=
  let n := nat_of_ascii c in
  (((9 <=? n) && (n <=? 13)) || ((28 <=? n) && (n <=? 32))
   || (n =? 133) || (n =? 160))%nat.

(** The line boundaries of [str.splitlines] in the same range. *)
Definition is_linebreak (c : ascii) : bool :=
  let n := nat_of_ascii c in
  (((10 <=? n) && (n <=? 13)) || ((28 <=? n) && (n <=? 30)) || (n =? 133))%nat.

Definition LF : ascii := ascii_of_nat 10.
Definition CR : ascii := ascii_of_nat 13.

Definition is_empty (s : string) : bool :=
  match s with EmptyString => true | String _ _ => false end.

(** A Python [str] is truthy when it is not empty. *)
Definition truthy (s : string) : bool := negb (is_empty s).

Fixpoint lstrip (s : string) : string :=
  match s with
  | EmptyString => EmptyString
  | String c t => if is_space c then lstrip t else s
  end.

Fixpoint rstrip (s : string) : string :=
  match s with
  | EmptyString => EmptyString
  | String c t =>
      let t' := rstrip t in
      if is_space c && is_empty t' then EmptyString else String c t'
  end.

(** [s.strip()] *)
Definition strip (s : string) : string := rstrip (lstrip s).

(** [str.lower] on one character: A-Z and the capital letters of
    U+00C0 to U+00DE (the multiplication sign U+00D7 apart). *)
Definition lower_char (c : ascii) : ascii :=
  let n := nat_of_ascii c in
  if (((65 <=? n) && (n <=? 90))
      || ((192 <=? n) && (n <=? 222) && negb (n =? 215)))%nat
  then ascii_of_nat (n + 32) else c.

(** [s.lower()] *)
Fixpoint lower (s : string) : string :=
  match s with
  | EmptyString => EmptyString
  | String c t => String (lower_char c) (lower t)
  end.

(** [needle in hay] *)
Fixpoint contains (needle hay : string) : bool :=
  String.prefix needle hay
  || match hay with
     | EmptyString => false
     | String _ t => contains needle t
     end.

Definition snoc (s : string) (c : ascii) : string := s ++ String c EmptyString.

(** [s.split()]: the maximal runs of characters that are not white space. *)
Fixpoint split_ws_from (tok s : string) : list string :=
  match s with
  | EmptyString => if is_empty tok then [] else [tok]
  | String c t =>
      if is_space c
      then (if is_empty tok then split_ws_from "" t
            else tok :: split_ws_from "" t)
      else split_ws_from (snoc tok c) t
  end.

Definition split_ws (s : string) : list string := split_ws_from "" s.

(** [s.split(sep)] for a separator of one character. *)
Fixpoint split_on_from (sep : ascii) (tok s : string) : list string :=
  match s with
  | EmptyString => [tok]
  | String c t =>
      if Ascii.eqb c sep then tok :: split_on_from sep "" t
      else split_on_from sep (snoc tok c) t
  end.

Definition split_on (sep : ascii) (s : string) : list string :=
  split_on_from sep "" s.

(** [s.splitlines()]: the line boundaries are dropped, CR LF is one
    boundary, and no empty last line is produced. *)
Fixpoint splitlines_from (cur s : string) : list string :=
  match s with
  | EmptyString => if is_empty cur then [] else [cur]
  | String c t =>
      if Ascii.eqb c CR then
        match t with
        | String c' t' =>
            if Ascii.eqb c' LF then cur :: splitlines_from "" t'
            else cur :: splitlines_from "" t
        | EmptyString => cur :: splitlines_from "" t
        end
      else if is_linebreak c then cur :: splitlines_from "" t
      else splitlines_from (snoc cur c) t
  end.

Definition splitlines (s : string) : list string := splitlines_from "" s.

(** [for line in f] over a text file: the lines with their newline. *)
Fixpoint readlines_from (cur s : string) : list string :=
  match s with
  | EmptyString => if is_empty cur then [] else [cur]
  | String c t =>
      if Ascii.eqb c LF then snoc cur c :: readlines_from "" t
      else readlines_from (snoc cur c) t
  end.

Definition readlines (s : string) : list string := readlines_from "" s.

(** [sep.join(l)] *)
Definition join (sep : string) (l : list string) : string :=
  String.concat sep l.

(** [str(n)] for an integer. *)
Definition of_Z (n : Z) : string := NilZero.string_of_int (Z.to_int n).

End PyStr.

(** ** The environment of a run *)

(** The bytes a subprocess wrote on one of its streams: the UTF-8 encoding
    of a text, or bytes that are not UTF-8. *)
Inductive stream : Type :=
| Utf8 (text : string)
| NotUtf8.

(** What [process.communicate()] and [process.returncode] give for one
    subprocess. *)
Record Completed : Type := mkCompleted {
  stdout : stream;
  stderr : stream;
  returncode : Z
}.

(** The exceptions the modelled code can raise. *)
Inductive exn : Type :=
| UnboundLocalError
| ValueError
| IndexError
| KeyError
| TypeError
| AttributeError
| JSONDecodeError
| FileNotFoundError
| PermissionError
| UnicodeDecodeError.

Inductive result (A : Type) : Type :=
| Ok (a : A)
| Raise (e : exn).
Arguments Ok {A} a.
Arguments Raise {A} e.

(** [b.decode()] *)
Definition decode (b : stream) : result string :=
  match b with
  | Utf8 text => Ok text
  | NotUtf8 => Raise UnicodeDecodeError
  end.

(** The values [json.loads] builds.  An object is the [dict] built from it,
    in insertion order; NaN and the infinities are left out of [JNumber]. *)
Inductive json : Type :=
| JNull
| JBool (b : bool)
| JNumber (q : QArith_base.Q)
| JString (s : string)
| JArray (items : list json)
| JObject (fields : list (string * json)).

(** A path of the file system, as [os.path.exists] and [open] see it:
    absent, present but refused by [open], or a text file, whose content is
    the text that reading it gives (line ends already translated). *)
Inductive file : Type :=
| Missing
| Unreadable
| Text (content : string).

(** What the run does to its surroundings, in program order.  [Append]
    is one [open(path, 'a')] with its single [write]; [Created] is
    [open(path, 'w')] and [Written] a [write] on the file so opened. *)
Inductive event : Type :=
| Spawn (command : string)
| Sleep (delay : Z)
| Printed (text : string)
| Makedirs (path : string)
| Append (path text : string)
| Created (path : string)
| Written (path text : string).

(** The collaborators of the code: the shell that runs a command line, the
    clock, the files that are read, and the library functions [json.loads],
    [json.dumps(_, indent=2)] and [str] on a decoded value. *)
(* [now] is [str(datetime.now())], [now_compact] its
   [strftime('%Y%m%d%H%M%S')], and [date_after d] the day [d] days later as
   [strftime('%Y-%m-%d')].  [date_after] is total: the [OverflowError] of a
   number of days that leads out of the range of [datetime] is left out, so
   the global [TTL_DURATION] is taken within that range. *)
Record Platform (World : Type) : Type := mkPlatform {
  shell : string -> World -> Completed * World;
  sleep : Z -> World -> World;
  now : World -> string;
  now_compact : World -> string;
  date_after : Z -> World -> string;
  files : string -> file;
  json_loads : string -> option json;
  json_dumps : json -> string;
  py_str : json -> string
}.
Arguments shell {World} _ _ _.
Arguments sleep {World} _ _ _.
Arguments now {World} _ _.
Arguments now_compact {World} _ _.
Arguments date_after {World} _ _ _.
Arguments files {World} _ _.
Arguments json_loads {World} _ _.
Arguments json_dumps {World} _ _.
Arguments py_str {World} _ _.

(** The state a run threads: the outside world, the module global
    [TTL_DURATION], and the events so far (oldest first). *)
Record Sys (World : Type) : Type := mkSys {
  world : World;
  TTL_DURATION : Z;
  trace : list event
}.
Arguments mkSys {World} _ _ _.
Arguments world {World} _.
Arguments TTL_DURATION {World} _.
Arguments trace {World} _.

(** Global constants of [app.py]. *)
Definition log_dir : string := "logs".
Definition snap_rid_list_file : string := "snap_rid_list.txt".
Definition inventory_file : string := "linux_vm-inventory.csv".
Definition TTL_DURATION_default : Z := 7.

(** ** JSON values as Python objects *)

Fixpoint assoc {A : Type} (key : string) (l : list (string * A)) : option A :=
  match l with
  | [] => None
  | (k, v) :: rest => if String.eqb k key then Some v else assoc key rest
  end.

(** [v[key]] *)
Definition subscript (v : json) (key : string) : result json :=
  match v with
  | JObject fields =>
      match assoc key fields with
      | Some x => Ok x
      | None => Raise KeyError
      end
  | _ => Raise TypeError
  end.

(** [v.get(key)] *)
Definition dict_get (v : json) (key : string) : result (option json) :=
  match v with
  | JObject fields => Ok (assoc key fields)
  | _ => Raise AttributeError
  end.

(** Truth value of a decoded value. *)
Definition json_truthy (v : json) : bool :=
  match v with
  | JNull => false
  | JBool b => b
  | JNumber q => negb (QArith_base.Qeq_bool q (QArith_base.Qmake 0 1))
  | JString s => PyStr.truthy s
  | JArray items => match items with [] => false | _ :: _ => true end
  | JObject fields => match fields with [] => false | _ :: _ => true end
  end.

(** ** Subscription Grouper: [group_vms_by_subscription] *)

(** A [defaultdict(list)]: keys in first-insertion order. *)
Definition grouping : Type := list (string * list (string * string)).

(** [grouped_vms[key].append(v)] *)
Fixpoint dict_append (key : string) (v : string * string) (g : grouping) : grouping :=
  match g with
  | [] => [(key, [v])]
  | (k, vs) :: rest =>
      if String.eqb k key then (k, (vs ++ [v])%list) :: rest
      else (k, vs) :: dict_append key v rest
  end.

Fixpoint group_loop (vm_list : list string) (grouped_vms : grouping) : result grouping :=
  match vm_list with
  | [] => Ok grouped_vms
  | line :: rest =>
      match PyStr.split_ws line with
      | [resource_id; vm_name] =>
          match nth_error (PyStr.split_on "/" resource_id) 2 with
          | Some subscription_id =>
              group_loop rest (dict_append subscription_id (resource_id, vm_name) grouped_vms)
          | None => Raise IndexError
          end
      | _ => Raise ValueError
      end
  end.

Definition group_vms_by_subscription (vm_list : list string) : result grouping :=
  group_loop vm_list [].

(** ** The program *)

(** A computation reads and updates the state of the run and either returns
    a value or raises. *)
Definition M (World A : Type) : Type := Sys World -> result A * Sys World.

Definition ret {World A : Type} (a : A) : M World A := fun s => (Ok a, s).

Definition raise {World A : Type} (e : exn) : M World A := fun s => (Raise e, s).

Definition bind {World A B : Type} (m : M World A) (f : A -> M World B) : M World B :=
  fun s =>
    match m s with
    | (Ok a, s') => f a s'
    | (Raise e, s') => (Raise e, s')
    end.

Declare Scope prog_scope.
Delimit Scope prog_scope with prog.
Notation "x <- c1 ;; c2" := (bind c1 (fun x => c2))
  (at level 61, c1 at next level, right associativity) : prog_scope.
Notation "' pat <- c1 ;; c2" := (bind c1 (fun x => match x with pat => c2 end))
  (at level 61, pat pattern, c1 at next level, right associativity) : prog_scope.
Notation "c1 ;; c2" := (bind c1 (fun _ => c2))
  (at level 61, right associativity) : prog_scope.
Open Scope prog_scope.

Definition lift {World A : Type} (r : result A) : M World A :=
  match r with
  | Ok a => ret a
  | Raise e => raise e
  end.

Definition emit {World : Type} (e : event) : M World unit :=
  fun s => (Ok tt, mkSys (world s) (TTL_DURATION s) (trace s ++ [e])%list).

Section Program.

Context {World : Type} (P : Platform World).

Local Abbreviation Prog := (M World).

Definition print (text : string) : Prog unit := emit (Printed text).

(** [asyncio.create_subprocess_shell] followed by [communicate]. *)
Definition subprocess (command : string) : Prog Completed :=
  fun s =>
    let (r, w) := shell P command (world s) in
    (Ok r, mkSys w (TTL_DURATION s) (trace s ++ [Spawn command])%list).

Definition asyncio_sleep (delay : Z) : Prog unit :=
  fun s =>
    (Ok tt, mkSys (sleep P delay (world s)) (TTL_DURATION s) (trace s ++ [Sleep delay])%list).

Definition clock {A : Type} (f : World -> A) : Prog A :=
  fun s => (Ok (f (world s)), s).

Definition get_TTL_DURATION : Prog Z := fun s => (Ok (TTL_DURATION s), s).

Definition set_TTL_DURATION (ttl : Z) : Prog unit :=
  fun s => (Ok tt, mkSys (world s) ttl (trace s)).

Definition path_exists (path : string) : bool :=
  match files P path with
  | Missing => false
  | _ => true
  end.

(** [open(path, 'r')] and the text read from it. *)
Definition read_text (path : string) : Prog string :=
  match files P path with
  | Text content => ret content
  | Missing => raise FileNotFoundError
  | Unreadable => raise PermissionError
  end.

(** *** Inventory Resolver: [get_vm_info], [extract_vm_info] *)

Fixpoint first_match (hostname : string) (lines : list string) : option string :=
  match lines with
  | [] => None
  | line :: rest =>
      if PyStr.contains hostname line then Some (PyStr.strip line)
      else first_match hostname rest
  end.

Definition get_vm_info (hostname inventory : string) : Prog (option string) :=
  content <- read_text inventory ;;
  ret (first_match hostname (PyStr.readlines content)).

(** [exclude_keywords and any(keyword.lower() in vm_info.lower() ...)] *)
Definition keyword_hit (exclude_keywords : option (list string)) (vm_info : string) : bool :=
  match exclude_keywords with
  | None => false
  | Some kws =>
      existsb (fun keyword => PyStr.contains (PyStr.lower keyword) (PyStr.lower vm_info)) kws
  end.

(** The loop over the host names; [vm_list] and [excluded_vms] are the two
    lists it appends to. *)
Fixpoint resolve_loop (exclude_keywords : option (list string)) (hostnames : list string)
    (vm_list excluded_vms : list string) : Prog (list string * list string) :=
  match hostnames with
  | [] => ret (vm_list, excluded_vms)
  | hostname :: rest =>
      vm_info <- get_vm_info hostname inventory_file ;;
      match vm_info with
      | Some info =>
          if PyStr.truthy info then
            if keyword_hit exclude_keywords info
            then resolve_loop exclude_keywords rest vm_list (excluded_vms ++ [hostname])%list
            else resolve_loop exclude_keywords rest (vm_list ++ [info])%list excluded_vms
          else
            print ("Warning: Information not found for hostname '" ++ hostname ++ "'") ;;
            resolve_loop exclude_keywords rest vm_list excluded_vms
      | None =>
          print ("Warning: Information not found for hostname '" ++ hostname ++ "'") ;;
          resolve_loop exclude_keywords rest vm_list excluded_vms
      end
  end.

Definition extract_vm_info (host_file : string) (exclude_keywords : option (list string))
  : Prog (option (list string) * option string) :=
  if negb (path_exists inventory_file) then
    ret (None, Some ("Error: Inventory file '" ++ inventory_file ++ "' not found."))
  else if negb (path_exists host_file) then
    ret (None, Some ("Error: List file '" ++ host_file ++ "' not found."))
  else
    content <- read_text host_file ;;
    '(vm_list, excluded_vms) <- resolve_loop exclude_keywords (PyStr.splitlines content) [] [] ;;
    match excluded_vms with
    | [] => ret tt
    | _ :: _ => print ("Excluded VMs based on keywords: " ++ PyStr.join ", " excluded_vms)
    end ;;
    ret (Some vm_list, None).

(** *** Command Executor: [run_az_command] *)

(** The [for attempt in range(max_retries)] loop with [todo] iterations
    left; [last] is the subprocess of the previous iteration, to which the
    names [stderr] and [process] are bound after the loop.  Every use of a
    stream decodes it, and raises when it is not UTF-8. *)
Fixpoint az_attempts (command : string) (max_retries delay : Z) (todo : nat)
    (attempt : Z) (last : option Completed) : Prog (string * string * Z) :=
  match todo with
  | O =>
      match last with
      | Some p =>
          err <- lift (decode (stderr p)) ;;
          ret ("", PyStr.strip err, returncode p)
      | None => raise UnboundLocalError
      end
  | S todo' =>
      p <- subprocess command ;;
      if (returncode p =? 0)%Z then
        out <- lift (decode (stdout p)) ;;
        err <- lift (decode (stderr p)) ;;
        ret (PyStr.strip out, PyStr.strip err, returncode p)
      else
        print ("Command failed (attempt " ++ PyStr.of_Z (attempt + 1) ++ "): " ++ command) ;;
        err <- lift (decode (stderr p)) ;;
        print ("Error: " ++ PyStr.strip err) ;;
        (if (attempt <? max_retries - 1)%Z then
           print ("Retrying in " ++ PyStr.of_Z delay ++ " seconds...") ;;
           asyncio_sleep delay
         else ret tt) ;;
        az_attempts command max_retries delay todo' (attempt + 1)%Z (Some p)
  end.

Definition run_az_command (command : string) (max_retries delay : Z)
  : Prog (string * string * Z) :=
  az_attempts command max_retries delay (Z.to_nat max_retries) 0%Z None.

(** The defaults [max_retries=3, delay=5]. *)
Definition run_az (command : string) : Prog (string * string * Z) :=
  run_az_command command 3 5.

(** *** Audit Sink: [write_log], [write_snapshot_rid] *)

Definition write_log (log_file message : string) (is_deletion : bool) : Prog unit :=
  timestamp <- clock (now P) ;;
  emit (Append log_file
          (timestamp ++ ": " ++ (if is_deletion then "[DELETION] " else "") ++ message
           ++ String PyStr.LF "")).

Definition registry_line (snapshot_id snapshot_name expiration_date user_id : string) : string :=
  snapshot_id ++ "," ++ snapshot_name ++ "," ++ expiration_date ++ "," ++ user_id
  ++ String PyStr.LF "".

Definition write_snapshot_rid (snapshot_id snapshot_name expiration_date user_id : string)
  : Prog unit :=
  emit (Append snap_rid_list_file
          (registry_line snapshot_id snapshot_name expiration_date user_id)).

Definition get_current_user_id : Prog (option string) :=
  '(stdout, stderr, returncode) <-
    run_az "az account show --query user.name -o tsv" ;;
  if negb (returncode =? 0)%Z then
    print ("Failed to get current user ID. Error: " ++ stderr) ;;
    ret None
  else ret (Some (PyStr.strip stdout)).

(** *** Snapshot Worker: [process_vm] *)

(** [f"RH_{chg_number}_{vm_name}_{timestamp}"] *)
Definition snapshot_name_of (chg_number vm_name timestamp : string) : string :=
  "RH_" ++ chg_number ++ "_" ++ vm_name ++ "_" ++ timestamp.

Definition snapshot_create_command
    (snapshot_name resource_group disk_id user_id : string) : string :=
  "az snapshot create --name " ++ snapshot_name ++ " --resource-group " ++ resource_group
  ++ " --source " ++ disk_id ++ " --tags CreatedByUserId=" ++ user_id ++ " drtier=NR".

(** [json.loads(text)] *)
Definition loads (text : string) : Prog json :=
  match json_loads P text with
  | Some v => ret v
  | None => raise JSONDecodeError
  end.

(** [resource_group] and [disk_id] are the values found in the decoded
    answer of [az vm show]; they enter the command line through [str]. *)
Definition process_vm (resource_id vm_name : string) (resource_group disk_id : json)
    (chg_number timestamp log_file user_id : string) : Prog (string * string) :=
  write_log log_file ("Processing VM: " ++ vm_name) false ;;
  write_log log_file ("Resource ID: " ++ resource_id) false ;;
  write_log log_file ("Resource group: " ++ py_str P resource_group) false ;;
  write_log log_file ("User ID: " ++ user_id) false ;;
  let snapshot_name := snapshot_name_of chg_number vm_name timestamp in
  ttl <- get_TTL_DURATION ;;
  expiration_date <- clock (date_after P ttl) ;;
  '(stdout, stderr, returncode) <-
    run_az (snapshot_create_command snapshot_name (py_str P resource_group)
              (py_str P disk_id) user_id) ;;
  if negb (returncode =? 0)%Z then
    write_log log_file ("Failed to create snapshot for VM: " ++ vm_name) false ;;
    write_log log_file ("Error: " ++ stderr) false ;;
    ret (vm_name, "Failed to create snapshot")
  else
    write_log log_file ("Snapshot created: " ++ snapshot_name) false ;;
    shown <- loads stdout ;;
    write_log log_file (json_dumps P shown) false ;;
    snapshot_data <- loads stdout ;;
    snapshot_id <- lift (dict_get snapshot_data "id") ;;
    let missing :=
      write_log log_file
        ("Warning: Could not extract snapshot resource ID for " ++ snapshot_name) false ;;
      ret (vm_name, "Failed to extract snapshot ID") in
    match snapshot_id with
    | Some id =>
        if json_truthy id then
          write_snapshot_rid (py_str P id) snapshot_name expiration_date user_id ;;
          write_log log_file
            ("Snapshot resource ID added to snap_rid_list.txt: " ++ py_str P id) false ;;
          ret (vm_name, snapshot_name)
        else missing
    | None => missing
    end.

(** *** Orchestrator: [main] *)

Definition outcomes : Type := list (string * string).

Definition vm_show_command (resource_id : string) : string :=
  "az vm show --ids " ++ resource_id
  ++ " --query '{resourceGroup:resourceGroup, diskId:storageProfile.osDisk.managedDisk.id}' -o json".

(** The loop over the VMs of one subscription that fetches the details of
    each and creates its task.  A task is the suspended call of
    [process_vm]; its events are placed where [gather] runs it, see there. *)
Fixpoint fetch_details (chg_number timestamp log_file user_id : string)
    (vms : list (string * string))
    (tasks : list (Prog (string * string))) (failed_snapshots : outcomes)
  : Prog (list (Prog (string * string)) * outcomes) :=
  match vms with
  | [] => ret (tasks, failed_snapshots)
  | (resource_id, vm_name) :: rest =>
      '(stdout, stderr, returncode) <- run_az (vm_show_command resource_id) ;;
      if negb (returncode =? 0)%Z then
        write_log log_file ("Failed to get VM details for " ++ vm_name) false ;;
        write_log log_file ("Error: " ++ stderr) false ;;
        fetch_details chg_number timestamp log_file user_id rest tasks
          (failed_snapshots ++ [(vm_name, "Failed to get VM details")])%list
      else
        vm_details <- loads stdout ;;
        resource_group <- lift (subscript vm_details "resourceGroup") ;;
        disk_id <- lift (subscript vm_details "diskId") ;;
        let task :=
          process_vm resource_id vm_name resource_group disk_id
            chg_number timestamp log_file user_id in
        fetch_details chg_number timestamp log_file user_id rest
          (tasks ++ [task])%list failed_snapshots
  end.

(** [await asyncio.gather] on the tasks: the results in the order of the tasks.
    In the source a task made by [asyncio.create_task] starts at the next
    suspension of [main], so the workers of one group run during the later
    detail queries of [main] and interleaved with each other.  Here a task
    runs when it is gathered, to its end, one task after the other.  The
    events of one worker keep their order; their place among the events of
    [main] and of the other workers is not the one of the source, and when
    several workers raise, the exception kept here is that of the first task
    and not that of the first in time.  The values of a run that returns do
    not depend on that place: [shell] is arbitrary and may answer from the
    whole history kept in the world, so every combination of answers that
    the commands can receive is covered.  The order of events is stated only
    where one coroutine runs alone. *)
Fixpoint gather (tasks : list (Prog (string * string))) : Prog outcomes :=
  match tasks with
  | [] => ret []
  | task :: rest =>
      r <- task ;;
      rs <- gather rest ;;
      ret (r :: rs)
  end.

(** The loop over [results] that sorts them into the two lists. *)
Fixpoint collect (results : outcomes) (successful_snapshots failed_snapshots : outcomes)
  : outcomes * outcomes :=
  match results with
  | [] => (successful_snapshots, failed_snapshots)
  | (vm_name, result) :: rest =>
      if negb (PyStr.contains "Failed" result)
      then collect rest (successful_snapshots ++ [(vm_name, result)])%list failed_snapshots
      else collect rest successful_snapshots (failed_snapshots ++ [(vm_name, result)])%list
  end.

Definition set_subscription_command (subscription_id : string) : string :=
  "az account set --subscription " ++ subscription_id.

(** One iteration of [for subscription_id, vms in grouped_vms.items()]. *)
Definition process_group (chg_number timestamp log_file user_id : string)
    (group : string * list (string * string))
    (successful_snapshots failed_snapshots : outcomes) : Prog (outcomes * outcomes) :=
  let (subscription_id, vms) := group in
  '(stdout, stderr, returncode) <- run_az (set_subscription_command subscription_id) ;;
  if negb (returncode =? 0)%Z then
    write_log log_file ("Failed to set subscription ID: " ++ subscription_id) false ;;
    write_log log_file ("Error: " ++ stderr) false ;;
    ret (successful_snapshots,
         (failed_snapshots
          ++ map (fun vm => (snd vm, "Failed to set subscription")) vms)%list)
  else
    write_log log_file ("Switched to subscription: " ++ subscription_id) false ;;
    '(tasks, failed_snapshots') <-
      fetch_details chg_number timestamp log_file user_id vms [] failed_snapshots ;;
    results <- gather tasks ;;
    ret (collect results successful_snapshots failed_snapshots').

Fixpoint process_groups (chg_number timestamp log_file user_id : string)
    (grouped_vms : grouping)
    (successful_snapshots failed_snapshots : outcomes) : Prog (outcomes * outcomes) :=
  match grouped_vms with
  | [] => ret (successful_snapshots, failed_snapshots)
  | group :: rest =>
      '(successful_snapshots', failed_snapshots') <-
        process_group chg_number timestamp log_file user_id group
          successful_snapshots failed_snapshots ;;
      process_groups chg_number timestamp log_file user_id rest
        successful_snapshots' failed_snapshots'
  end.

Definition nl : string := String PyStr.LF "".

(** The local variables of [main] when the loop over the subscriptions
    has ended. *)
Record Run : Type := mkRun {
  total_vms : nat;
  successful_snapshots : outcomes;
  failed_snapshots : outcomes;
  log_file : string;
  summary_file : string
}.

(** The dictionary [main] returns. *)
Inductive response : Type :=
| ErrorResponse (error : string)
| Report (total successful failed : nat) (log summary registry : string).

Definition of_nat (n : nat) : string := PyStr.of_Z (Z.of_nat n).

(** [main] from its first line to the end of the loop over the
    subscriptions: an error message, or the state to summarise. *)
Definition main_run (host_file chg_number : string) (ttl_duration : Z)
    (exclude_keywords : option (list string)) : Prog (string + Run) :=
  set_TTL_DURATION ttl_duration ;;
  emit (Makedirs log_dir) ;;
  timestamp <- clock (now_compact P) ;;
  let log_file := log_dir ++ "/" ++ "snapshot_creation_log_" ++ timestamp ++ ".txt" in
  let summary_file := log_dir ++ "/" ++ "snapshot_summary_" ++ timestamp ++ ".txt" in
  write_log log_file ("CHG Number: " ++ chg_number) false ;;
  ttl <- get_TTL_DURATION ;;
  write_log log_file ("Snapshot Time-to-Live: " ++ PyStr.of_Z ttl ++ " days") false ;;
  user_id <- get_current_user_id ;;
  match user_id with
  | None =>
      ret (inl "Failed to retrieve user ID from Azure CLI. Ensure you are logged in with 'az login'.")
  | Some user_id =>
      if negb (PyStr.truthy user_id) then
        ret (inl "Failed to retrieve user ID from Azure CLI. Ensure you are logged in with 'az login'.")
      else
        write_log log_file ("User ID: " ++ user_id) false ;;
        '(vm_list, error) <- extract_vm_info host_file exclude_keywords ;;
        if match error with Some error => PyStr.truthy error | None => false end then
          ret (inl (match error with Some error => error | None => "" end))
        else
          match vm_list with
          | None => ret (inl "No valid VM information found.")
          | Some [] => ret (inl "No valid VM information found.")
          | Some vm_list =>
              let total_vms := length vm_list in
              grouped_vms <- lift (group_vms_by_subscription vm_list) ;;
              '(successful_snapshots, failed_snapshots) <-
                process_groups chg_number timestamp log_file user_id grouped_vms [] [] ;;
              ret (inr (mkRun total_vms successful_snapshots failed_snapshots
                          log_file summary_file))
          end
  end.

Fixpoint write_items (summary_file : string) (items : outcomes) : Prog unit :=
  match items with
  | [] => ret tt
  | (vm, text) :: rest =>
      emit (Written summary_file ("- " ++ vm ++ ": " ++ text ++ nl)) ;;
      write_items summary_file rest
  end.

Definition write_summary (r : Run) : Prog unit :=
  let f := summary_file r in
  emit (Created f) ;;
  emit (Written f ("Self-Destruct Snapshot Creation Summary" ++ nl)) ;;
  emit (Written f ("=======================================" ++ nl ++ nl)) ;;
  emit (Written f ("Total VMs processed: " ++ of_nat (total_vms r) ++ nl)) ;;
  emit (Written f ("Successful snapshots: " ++ of_nat (length (successful_snapshots r)) ++ nl)) ;;
  emit (Written f ("Failed snapshots: " ++ of_nat (length (failed_snapshots r)) ++ nl)) ;;
  ttl <- get_TTL_DURATION ;;
  emit (Written f ("Time-to-Live: " ++ PyStr.of_Z ttl ++ " days" ++ nl ++ nl)) ;;
  emit (Written f ("Successful snapshots:" ++ nl)) ;;
  write_items f (successful_snapshots r) ;;
  emit (Written f (nl ++ "Failed snapshots:" ++ nl)) ;;
  write_items f (failed_snapshots r).

Definition main (host_file chg_number : string) (ttl_duration : Z)
    (exclude_keywords : option (list string)) : Prog response :=
  r <- main_run host_file chg_number ttl_duration exclude_keywords ;;
  match r with
  | inl error => ret (ErrorResponse error)
  | inr run =>
      write_summary run ;;
      ret (Report (total_vms run) (length (successful_snapshots run))
             (length (failed_snapshots run))
             (log_file run) (summary_file run) snap_rid_list_file)
  end.

End Program.


(** ** Vocabulary of the statements *)

(** A record the grouper cannot parse: the line does not split into exactly
    two fields, or its resource identifier has no segment of index 2. *)
Definition malformed (line : string) : bool :=
  match PyStr.split_ws line with
  | [resource_id; _] =>
      match nth_error (PyStr.split_on "/" resource_id) 2 with
      | Some _ => false
      | None => true
      end
  | _ => true
  end.

(** The exception the loop body raises on a malformed record. *)
Definition parse_error (line : string) : exn :=
  match PyStr.split_ws line with
  | [_; _] => IndexError
  | _ => ValueError
  end.

Definition group_size (g : grouping) : nat :=
  list_sum (map (fun kv => length (snd kv)) g).

(** What one host name adds to [vm_list]: its matched line, when there is
    one, it is not empty and no exclusion keyword occurs in it. *)
Definition resolved_line (exclude_keywords : option (list string)) (lines : list string)
    (hostname : string) : list string :=
  match first_match hostname lines with
  | Some info =>
      if PyStr.truthy info && negb (keyword_hit exclude_keywords info) then [info] else []
  | None => []
  end.

Definition resolved (exclude_keywords : option (list string)) (lines hostnames : list string)
  : list string :=
  flat_map (resolved_line exclude_keywords lines) hostnames.

(** The host names that go to [excluded_vms]. *)
Definition is_excluded (exclude_keywords : option (list string)) (lines : list string)
    (hostname : string) : bool :=
  match first_match hostname lines with
  | Some info => PyStr.truthy info && keyword_hit exclude_keywords info
  | None => false
  end.

(** The host names for which the warning is printed. *)
Definition not_found (lines : list string) (hostname : string) : bool :=
  match first_match hostname lines with
  | Some info => negb (PyStr.truthy info)
  | None => true
  end.

Definition warning (hostname : string) : event :=
  Printed ("Warning: Information not found for hostname '" ++ hostname ++ "'").

Definition exclusion_notice (excluded_vms : list string) : list event :=
  match excluded_vms with
  | [] => []
  | _ :: _ => [Printed ("Excluded VMs based on keywords: " ++ PyStr.join ", " excluded_vms)]
  end.


Section Vocabulary.

Context {World : Type} (P : Platform World).

(** The commands spawned in a trace, oldest first. *)
Fixpoint spawns (t : list event) : list string :=
  match t with
  | [] => []
  | Spawn c :: rest => c :: spawns rest
  | _ :: rest => spawns rest
  end.

(** The texts appended to [path] in a trace, oldest first. *)
Fixpoint appended (path : string) (t : list event) : list string :=
  match t with
  | [] => []
  | Append p text :: rest =>
      if String.eqb p path then text :: appended path rest else appended path rest
  | _ :: rest => appended path rest
  end.

(** The events of the executor running [command]: it spawns nothing else
    and writes to no file. *)
Definition executor_event (command : string) (e : event) : Prop :=
  match e with
  | Spawn c => c = command
  | Sleep _ => True
  | Printed _ => True
  | _ => False
  end.

(** [m], started in world [w] with global [ttl], yields [r], leaves world
    [w'] and adds the events [evs], whatever happened before. *)
Definition runs {A : Type} (m : M World A) (w : World) (ttl : Z)
    (r : result A) (w' : World) (evs : list event) : Prop :=
  forall t, m (mkSys w ttl t) = (r, mkSys w' ttl (t ++ evs)%list).

(** The entry [write_log] appends for [message] at the time of world [w]. *)
Definition log_entry (w : World) (log_file message : string) : event :=
  Append log_file (now P w ++ ": " ++ "" ++ message ++ String PyStr.LF "").

(** The text of a stream that is UTF-8. *)
Definition decoded (b : stream) : string :=
  match b with
  | Utf8 text => text
  | NotUtf8 => ""
  end.

(** The world in which attempt number [k] (from 0) of the executor runs
    [command], when the attempts before it failed: each of them ran the
    command and was followed by the delay. *)
Fixpoint world_before_attempt (command : string) (delay : Z) (k : nat) (w : World) : World :=
  match k with
  | O => w
  | S j => world_before_attempt command delay j (sleep P delay (snd (shell P command w)))
  end.

(** What attempt number [k] captures. *)
Definition attempt_result (command : string) (delay : Z) (k : nat) (w : World) : Completed :=
  fst (shell P command (world_before_attempt command delay k w)).

End Vocabulary.

(** ** Vocabulary of the further properties *)

(** The delays slept in a trace, oldest first. *)
Fixpoint sleeps (t : list event) : list Z :=
  match t with
  | [] => []
  | Sleep d :: rest => d :: sleeps rest
  | _ :: rest => sleeps rest
  end.

(** The subscription and the record that the loop body of the grouper reads
    in a line, when the line is well formed. *)
Definition parse_record (line : string) : option (string * (string * string)) :=
  match PyStr.split_ws line with
  | [resource_id; vm_name] =>
      match nth_error (PyStr.split_on "/" resource_id) 2 with
      | Some subscription_id => Some (subscription_id, (resource_id, vm_name))
      | None => None
      end
  | _ => None
  end.

(** The records of [vm_list] that belong to a subscription, in the order of
    the list. *)
Definition records_of (subscription_id : string) (vm_list : list string)
  : list (string * string) :=
  flat_map
    (fun line =>
       match parse_record line with
       | Some (k, v) => if String.eqb k subscription_id then [v] else []
       | None => []
       end)
    vm_list.

(** The VM names in the records of a list of inventory lines. *)
Definition vm_names (vm_list : list string) : list string :=
  flat_map
    (fun line =>
       match parse_record line with
       | Some (_, (_, vm_name)) => [vm_name]
       | None => []
       end)
    vm_list.

(** The VM names in a grouping, group after group. *)
Definition group_names (g : grouping) : list string :=
  flat_map (fun kv => map snd (snd kv)) g.

(** [m] leaves the global [TTL_DURATION] as it finds it, whatever it returns
    or raises, and what it returns satisfies [Q]. *)
Definition ensures {World A : Type} (m : M World A) (Q : A -> Prop) : Prop :=
  forall s,
    TTL_DURATION (snd (m s)) = TTL_DURATION s
    /\ forall a, fst (m s) = Ok a -> Q a.

(** Each task reports under the name that stands at its place in [names]. *)
Definition report_as {World : Type} (tasks : list (M World (string * string)))
    (names : list string) : Prop :=
  Forall2 (fun task name => ensures task (fun r => fst r = name)) tasks names.

(** ** Concrete runs

    Platforms with a world that keeps no state: every command is answered
    from its text alone. *)

Module Scenario.

Definition LF : string := String PyStr.LF "".

Definition text_of (j : json) : string :=
  match j with
  | JString s => s
  | JNull => "None"
  | _ => "?"
  end.

(** A subprocess that wrote two texts. *)
Definition wrote (out err : string) (status : Z) : Completed :=
  mkCompleted (Utf8 out) (Utf8 err) status.

Definition scripted (answer : string -> Completed) (fs : string -> file)
    (parse : string -> option json) : Platform unit :=
  mkPlatform unit
    (fun command w => (answer command, w))
    (fun _ w => w)
    (fun _ => "2024-01-01 00:00:00")
    (fun _ => "20240101000000")
    (fun _ _ => "2024-01-08")
    fs parse
    (fun _ => "{}")
    text_of.

Definition start : Sys unit := mkSys tt TTL_DURATION_default [].

Definition no_files (path : string) : file := Missing.

Definition no_json (text : string) : option json := None.

(** Every command fails, with something on both streams. *)
Definition always_failing : Platform unit :=
  scripted (fun _ => wrote "partial output" "boom" 1) no_files no_json.

(** Every command fails, and what it writes on its standard error is not
    UTF-8. *)
Definition garbled_failure : Platform unit :=
  scripted (fun _ => mkCompleted (Utf8 "") NotUtf8 1) no_files no_json.

(** Two files: the inventory and the host list [hosts.txt]. *)
Definition two_files (inventory hosts : string) (path : string) : file :=
  if String.eqb path inventory_file then Text inventory
  else if String.eqb path "hosts.txt" then Text hosts
  else Missing.

(** The answers of a healthy cloud: the user is [alice], every VM has a
    resource group and a disk, every snapshot gets an identifier. *)
Definition healthy (command : string) : Completed :=
  if PyStr.contains "az account show" command then wrote ("alice" ++ LF) "" 0
  else if PyStr.contains "az account set" command then wrote "" "" 0
  else if PyStr.contains "az vm show" command then wrote "details" "" 0
  else wrote "snapshot" "" 0.

Definition healthy_json (text : string) : option json :=
  if String.eqb text "details"
  then Some (JObject [("resourceGroup", JString "rg"); ("diskId", JString "disk")])
  else if String.eqb text "snapshot"
  then Some (JObject [("name", JString "snap"); ("id", JString "/snapshots/1")])
  else None.

(** As [healthy], but the subscription [S2] cannot be selected. *)
Definition s2_down (command : string) : Completed :=
  if PyStr.contains "az account set --subscription S2" command
  then wrote "" "subscription not found" 1
  else healthy command.

(** As [healthy_json], but the answer of the snapshot creation has no [id]. *)
Definition json_without_id (text : string) : option json :=
  if String.eqb text "details"
  then Some (JObject [("resourceGroup", JString "rg"); ("diskId", JString "disk")])
  else if String.eqb text "snapshot"
  then Some (JObject [("name", JString "snap")])
  else None.

Definition inventory_2 : string :=
  "/subscriptions/S1/rg/vm1 vm1" ++ LF ++ "/subscriptions/S2/rg/vm2 vm2" ++ LF.

Definition hosts_2 : string := "vm1" ++ LF ++ "vm2" ++ LF.

(** The inventory of [inventory_2] and its two hosts; [S2] is down. *)
Definition two_subscriptions : Platform unit :=
  scripted s2_down (two_files inventory_2 hosts_2) healthy_json.

(** The same inventory and hosts on a healthy cloud. *)
Definition all_well : Platform unit :=
  scripted healthy (two_files inventory_2 hosts_2) healthy_json.


(** The inventory starts with an empty line and the host list has one. *)
Definition blank_lines : Platform unit :=
  scripted healthy (two_files (LF ++ inventory_2) ("vm1" ++ LF ++ LF ++ "vm2" ++ LF))
    healthy_json.

(** The host list has an empty line; the inventory starts with a VM. *)
Definition blank_host_line : Platform unit :=
  scripted healthy (two_files inventory_2 ("vm2" ++ LF ++ LF)) healthy_json.

(** One VM whose name contains the word the orchestrator looks for. *)
Definition failover_vm : Platform unit :=
  scripted healthy
    (two_files ("/subscriptions/S1/rg/FailedoverDB FailedoverDB" ++ LF) ("FailedoverDB" ++ LF))
    healthy_json.

(** One VM, and a snapshot answer without [id]. *)
Definition answer_without_id : Platform unit :=
  scripted healthy (two_files inventory_2 ("vm1" ++ LF)) json_without_id.

(** The line of [vm2] carries a tag; the host list names both VMs. *)
Definition tagged_inventory : string :=
  "/subscriptions/S1/rg/vm1 vm1" ++ LF ++ "/subscriptions/S2/rg-DoNotSnapshot/vm2 vm2" ++ LF.

Definition tagged : Platform unit :=
  scripted healthy (two_files tagged_inventory hosts_2) healthy_json.

End Scenario.

(** ** Further concrete runs *)

Module Cases.

(** A command that fails [failures] times and then succeeds; the world
    counts the runs of the command. *)
Definition flaky (failures : nat) : Platform nat :=
  mkPlatform nat
    (fun _ w =>
       (if (w <? failures)%nat then Scenario.wrote "" "busy" 1
        else Scenario.wrote (" ok " ++ Scenario.LF) "" 0, S w))
    (fun _ w => w)
    (fun _ => "2024-01-01 00:00:00")
    (fun _ => "20240101000000")
    (fun _ _ => "2024-01-08")
    Scenario.no_files Scenario.no_json
    (fun _ => "{}")
    Scenario.text_of.

Definition flaky_start : Sys nat := mkSys 0 TTL_DURATION_default [].

(** As [Scenario.healthy], but no snapshot can be created. *)
Definition create_down (command : string) : Completed :=
  if PyStr.contains "az snapshot create" command
  then Scenario.wrote "" "disk is locked" 1
  else Scenario.healthy command.

Definition create_fails : Platform unit :=
  Scenario.scripted create_down (Scenario.two_files Scenario.inventory_2 Scenario.hosts_2)
    Scenario.healthy_json.

(** The answer of the snapshot creation has a null [id]. *)
Definition json_null_id (text : string) : option json :=
  if String.eqb text "snapshot" then Some (JObject [("id", JNull)])
  else Scenario.healthy_json text.

Definition null_id : Platform unit :=
  Scenario.scripted Scenario.healthy (Scenario.two_files Scenario.inventory_2 Scenario.hosts_2)
    json_null_id.

(** No output is JSON. *)
Definition not_json : Platform unit :=
  Scenario.scripted Scenario.healthy (Scenario.two_files Scenario.inventory_2 Scenario.hosts_2)
    Scenario.no_json.

(** The answer of the snapshot creation is a list. *)
Definition json_list (text : string) : option json :=
  if String.eqb text "snapshot" then Some (JArray [])
  else Scenario.healthy_json text.

Definition list_answer : Platform unit :=
  Scenario.scripted Scenario.healthy (Scenario.two_files Scenario.inventory_2 Scenario.hosts_2)
    json_list.

(** The details of no VM can be fetched. *)
Definition show_down (command : string) : Completed :=
  if PyStr.contains "az vm show" command
  then Scenario.wrote "" "not authorized" 1
  else Scenario.healthy command.

Definition show_fails : Platform unit :=
  Scenario.scripted show_down (Scenario.two_files Scenario.inventory_2 Scenario.hosts_2)
    Scenario.healthy_json.

(** Nobody is logged in. *)
Definition login_down (command : string) : Completed :=
  if PyStr.contains "az account show" command
  then Scenario.wrote "" "Please run 'az login'" 1
  else Scenario.healthy command.

Definition logged_out : Platform unit :=
  Scenario.scripted login_down (Scenario.two_files Scenario.inventory_2 Scenario.hosts_2)
    Scenario.healthy_json.

(** A healthy cloud, but no file at all. *)
Definition no_inventory : Platform unit :=
  Scenario.scripted Scenario.healthy Scenario.no_files Scenario.healthy_json.

(** The host list names only hosts the inventory does not have. *)
Definition strangers : Platform unit :=
  Scenario.scripted Scenario.healthy
    (Scenario.two_files Scenario.inventory_2 ("vm8" ++ Scenario.LF ++ "vm9" ++ Scenario.LF))
    Scenario.healthy_json.

End Cases.

(** * Properties *)

(** ** Checks of the text primitives and of the grouper *)

Example split_ws_ex :
  PyStr.split_ws "  /subscriptions/S1/x  vm1 " = ["/subscriptions/S1/x"; "vm1"].
Proof. reflexivity. Qed.

Example split_on_ex :
  PyStr.split_on "/" "/subscriptions/S1/x" = [""; "subscriptions"; "S1"; "x"].
Proof. reflexivity. Qed.

Example splitlines_ex :
  PyStr.splitlines (String PyStr.LF ("vm1" ++ String PyStr.CR (String PyStr.LF "vm2")))
  = [""; "vm1"; "vm2"].
Proof. reflexivity. Qed.

Example readlines_ex :
  PyStr.readlines ("a b" ++ String PyStr.LF ("c" ++ String PyStr.LF "d"))
  = ["a b" ++ String PyStr.LF ""; "c" ++ String PyStr.LF ""; "d"].
Proof. reflexivity. Qed.

Example strip_lower_ex :
  PyStr.lower (PyStr.strip ("  DoNot Snapshot " ++ String PyStr.LF "")) = "donot snapshot".
Proof. reflexivity. Qed.

Example of_Z_ex : PyStr.of_Z 0 = "0" /\ PyStr.of_Z 42 = "42" /\ PyStr.of_Z (-7) = "-7".
Proof. repeat split; reflexivity. Qed.

Example group_ex :
  group_vms_by_subscription
    ["/subscriptions/S1/rg/a vm1"; "/subscriptions/S2/rg/b vm2"; "/subscriptions/S1/rg/c vm3"]
  = Ok [("S1", [("/subscriptions/S1/rg/a", "vm1"); ("/subscriptions/S1/rg/c", "vm3")]);
        ("S2", [("/subscriptions/S2/rg/b", "vm2")])].
Proof. reflexivity. Qed.

(** ** Text *)

Lemma append_cancel_l (p a b : string) : p ++ a = p ++ b -> a = b.
Proof.
  induction p as [|c p IH]; simpl; intros H.
  - exact H.
  - injection H as H. auto.
Qed.

Lemma length_append (a b : string) :
  String.length (a ++ b) = String.length a + String.length b.
Proof.
  induction a as [|c a IH]; simpl; [reflexivity | now rewrite IH].
Qed.

Lemma append_cancel_r (a b s : string) : a ++ s = b ++ s -> a = b.
Proof.
  revert b. induction a as [|c a IH]; intros [|d b] H; simpl in H.
  - reflexivity.
  - apply (f_equal String.length) in H. simpl in H. rewrite length_append in H. lia.
  - apply (f_equal String.length) in H. simpl in H. rewrite length_append in H. lia.
  - injection H as Hc H. subst d. f_equal. auto.
Qed.

(** ** Snapshot names *)

(** C9: for a fixed change number and run timestamp, two VMs with distinct
    names get distinct snapshot names: the name [RH_chg_vm_ts] is injective
    in the VM name. *)
Theorem snapshot_name_injective (chg ts vmA vmB : string) :
  vmA <> vmB -> snapshot_name_of chg vmA ts <> snapshot_name_of chg vmB ts.
Proof.
  intros Hne Heq. apply Hne. unfold snapshot_name_of in Heq.
  apply (append_cancel_l "RH_") in Heq.
  apply append_cancel_l in Heq.
  apply (append_cancel_l "_") in Heq.
  now apply append_cancel_r in Heq.
Qed.

Lemma snapshot_name_injective_witness :
  "vm1" <> "vm2" /\ snapshot_name_of "123" "vm1" "20240101" <> snapshot_name_of "123" "vm2" "20240101".
Proof.
  split; [discriminate | apply (snapshot_name_injective "123" "20240101" "vm1" "vm2"); discriminate].
Defined.

(** ** Subscription Grouper *)

Lemma dict_append_size (key : string) (v : string * string) (g : grouping) :
  group_size (dict_append key v g) = S (group_size g).
Proof.
  unfold group_size. induction g as [|[k vs] g IH]; simpl.
  - reflexivity.
  - destruct (String.eqb k key); simpl.
    + rewrite length_app. simpl. lia.
    + rewrite IH. lia.
Qed.

Lemma group_loop_size (vm_list : list string) :
  forall g g', group_loop vm_list g = Ok g' ->
               group_size g' = group_size g + length vm_list.
Proof.
  induction vm_list as [|line rest IH]; intros g g' H;
    cbn [group_loop length] in *.
  - injection H as <-. lia.
  - destruct (PyStr.split_ws line) as [|rid [|name [|x xs]]]; try discriminate.
    destruct (nth_error (PyStr.split_on "/" rid) 2); try discriminate.
    apply IH in H. rewrite H, dict_append_size. lia.
Qed.

(** Grouping keeps the number of VMs. *)
Lemma group_vms_by_subscription_size (vm_list : list string) (g : grouping) :
  group_vms_by_subscription vm_list = Ok g -> group_size g = length vm_list.
Proof.
  intros H. apply group_loop_size in H. exact H.
Qed.

Lemma group_loop_malformed (good : list string) :
  forall (bad : string) (rest : list string) (g : grouping),
    forallb (fun l => negb (malformed l)) good = true ->
    malformed bad = true ->
    group_loop (good ++ bad :: rest)%list g = Raise (parse_error bad).
Proof.
  induction good as [|line good IH]; intros bad rest g Hgood Hbad;
    cbn [group_loop app forallb] in *.
  - unfold malformed in Hbad. unfold parse_error.
    destruct (PyStr.split_ws bad) as [|rid [|name [|x xs]]]; try reflexivity.
    destruct (nth_error (PyStr.split_on "/" rid) 2); [discriminate | reflexivity].
  - apply andb_prop in Hgood as [Hline Hgood].
    unfold malformed in Hline.
    destruct (PyStr.split_ws line) as [|rid [|name [|x xs]]]; try discriminate.
    destruct (nth_error (PyStr.split_on "/" rid) 2); try discriminate.
    now apply IH.
Qed.

(** Every list with a malformed record splits at its first one. *)
Lemma first_malformed (vm_list : list string) :
  existsb malformed vm_list = true ->
  exists good bad rest,
    vm_list = (good ++ bad :: rest)%list
    /\ forallb (fun l => negb (malformed l)) good = true
    /\ malformed bad = true.
Proof.
  induction vm_list as [|line rest IH]; simpl; intros H; [discriminate|].
  destruct (malformed line) eqn:Hline.
  - exists [], line, rest. repeat split; assumption.
  - simpl in H. destruct (IH H) as (good & bad & rest' & -> & Hgood & Hbad).
    exists (line :: good), bad, rest'. repeat split; trivial.
    simpl. now rewrite Hline.
Qed.

(** C3, as the code has it: on a list with a malformed record the grouper
    returns no grouping at all; it raises, at the first malformed record,
    [ValueError] when the line does not split into exactly two fields and
    [IndexError] when the resource identifier is too short.  No error is
    reported per record. *)
Theorem group_vms_by_subscription_malformed (vm_list : list string) :
  existsb malformed vm_list = true ->
  exists good bad rest,
    vm_list = (good ++ bad :: rest)%list
    /\ forallb (fun l => negb (malformed l)) good = true
    /\ malformed bad = true
    /\ group_vms_by_subscription vm_list = Raise (parse_error bad).
Proof.
  intros H. destruct (first_malformed vm_list H) as (good & bad & rest & -> & Hgood & Hbad).
  exists good, bad, rest. repeat split; trivial.
  now apply group_loop_malformed.
Qed.

Lemma group_vms_by_subscription_malformed_witness :
  existsb malformed
    ["/subscriptions/S1/rg/a vm1"; "/subscriptions/S1/rg/b vm2 extra"; "/subscriptions/S2/rg/c vm3"]
  = true
  /\ exists good bad rest,
    ["/subscriptions/S1/rg/a vm1"; "/subscriptions/S1/rg/b vm2 extra"; "/subscriptions/S2/rg/c vm3"]
    = (good ++ bad :: rest)%list
    /\ forallb (fun l => negb (malformed l)) good = true
    /\ malformed bad = true
    /\ group_vms_by_subscription
         ["/subscriptions/S1/rg/a vm1"; "/subscriptions/S1/rg/b vm2 extra"; "/subscriptions/S2/rg/c vm3"]
       = Raise (parse_error bad).
Proof.
  split; [reflexivity|].
  apply (group_vms_by_subscription_malformed
           ["/subscriptions/S1/rg/a vm1"; "/subscriptions/S1/rg/b vm2 extra"; "/subscriptions/S2/rg/c vm3"]).
  reflexivity.
Defined.

(** C3, as the specification states it, fails: a line of three fields makes
    the grouper raise [ValueError], and a resource identifier of two
    segments makes it raise [IndexError]; in both cases the well-formed
    records are lost with it. *)
Lemma group_vms_by_subscription_raises :
  group_vms_by_subscription ["/subscriptions/S1/rg/a vm1"; "/subscriptions/S1/rg/b vm2 extra"]
  = Raise ValueError
  /\ group_vms_by_subscription ["/subscriptions/S1/rg/a vm1"; "subscriptions/S1 vm2"]
    = Raise IndexError.
Proof. split; reflexivity. Qed.

(** ** Computations *)

Section Steps.

Context {World : Type} (P : Platform World).

Lemma bind_Ok_inv {A B : Type} (m : M World A) (f : A -> M World B)
    (s s' : Sys World) (b : B) :
  bind m f s = (Ok b, s') ->
  exists a s1, m s = (Ok a, s1) /\ f a s1 = (Ok b, s').
Proof.
  unfold bind. destruct (m s) as [[a|e] s1]; intros H.
  - now exists a, s1.
  - discriminate.
Qed.

Lemma bind_step {A B : Type} (m : M World A) (f : A -> M World B)
    (s s1 : Sys World) (a : A) :
  m s = (Ok a, s1) -> bind m f s = f a s1.
Proof. unfold bind. now intros ->. Qed.

Lemma bind_raise {A B : Type} (m : M World A) (f : A -> M World B)
    (s s1 : Sys World) (e : exn) :
  m s = (Raise e, s1) -> bind m f s = (Raise e, s1).
Proof. unfold bind. now intros ->. Qed.

Lemma emit_eq (e : event) (s : Sys World) :
  emit e s = (Ok tt, mkSys (world s) (TTL_DURATION s) (trace s ++ [e])%list).
Proof. reflexivity. Qed.

Lemma print_eq (text : string) (s : Sys World) :
  print text s = (Ok tt, mkSys (world s) (TTL_DURATION s) (trace s ++ [Printed text])%list).
Proof. reflexivity. Qed.

Lemma write_log_eq (log_file message : string) (s : Sys World) :
  write_log P log_file message false s
  = (Ok tt, mkSys (world s) (TTL_DURATION s)
              (trace s ++ [log_entry P (world s) log_file message])%list).
Proof. reflexivity. Qed.

Lemma clock_eq {A : Type} (f : World -> A) (s : Sys World) :
  clock f s = (Ok (f (world s)), s).
Proof. reflexivity. Qed.

Lemma get_TTL_DURATION_eq (s : Sys World) :
  get_TTL_DURATION s = (Ok (TTL_DURATION s), s).
Proof. reflexivity. Qed.

Lemma ret_eq {A : Type} (a : A) (s : Sys World) : ret a s = (Ok a, s).
Proof. reflexivity. Qed.

Lemma runs_at {A : Type} (m : M World A) (s : Sys World)
    (r : result A) (w' : World) (evs : list event) :
  runs m (world s) (TTL_DURATION s) r w' evs ->
  m s = (r, mkSys w' (TTL_DURATION s) (trace s ++ evs)%list).
Proof. intros H. destruct s as [w ttl t]. apply H. Qed.

End Steps.

(** One step of a computation whose first action always succeeds. *)
Ltac step :=
  first
    [ erewrite bind_step by apply write_log_eq
    | erewrite bind_step by apply emit_eq
    | erewrite bind_step by apply print_eq
    | erewrite bind_step by apply clock_eq
    | erewrite bind_step by apply get_TTL_DURATION_eq
    | erewrite bind_step by apply ret_eq ].

Ltac step_in H :=
  first
    [ erewrite bind_step in H by apply write_log_eq
    | erewrite bind_step in H by apply emit_eq
    | erewrite bind_step in H by apply print_eq
    | erewrite bind_step in H by apply clock_eq
    | erewrite bind_step in H by apply get_TTL_DURATION_eq
    | erewrite bind_step in H by apply ret_eq ].

(** The first action of a computation that returned. *)
Ltac bind_inv H :=
  let a := fresh "a" in
  let s := fresh "s" in
  let Ha := fresh "Ha" in
  apply bind_Ok_inv in H; destruct H as (a & s & Ha & H).

Tactic Notation "bind_inv_as" hyp(H) ident(a) ident(s) ident(Ha) :=
  apply bind_Ok_inv in H; destruct H as (a & s & Ha & H).

(** ** Command Executor *)

Section Executor.

Context {World : Type} (P : Platform World).

#[local] Arguments String.append : simpl never.

Lemma spawns_app (t1 t2 : list event) : spawns (t1 ++ t2) = (spawns t1 ++ spawns t2)%list.
Proof.
  induction t1 as [|e t1 IH]; simpl; [reflexivity|].
  destruct e; simpl; now rewrite ?IH.
Qed.

Lemma appended_app (path : string) (t1 t2 : list event) :
  appended path (t1 ++ t2) = (appended path t1 ++ appended path t2)%list.
Proof.
  induction t1 as [|e t1 IH]; simpl; [reflexivity|].
  destruct e; simpl; rewrite ?IH; try reflexivity.
  destruct (String.eqb path0 path); simpl; now rewrite ?IH.
Qed.

(** One failed attempt whose standard error is UTF-8: what it prints,
    whether it sleeps, and how the loop goes on. *)
Lemma az_attempts_failed_step (command : string) (max_retries delay : Z) (todo : nat)
    (attempt : Z) (last : option Completed) (s : Sys World) (p : Completed) (w1 : World) :
  shell P command (world s) = (p, w1) ->
  returncode p <> 0%Z ->
  stderr p <> NotUtf8 ->
  az_attempts P command max_retries delay (S todo) attempt last s
  = az_attempts P command max_retries delay todo (attempt + 1)%Z (Some p)
      (mkSys (if (attempt <? max_retries - 1)%Z then sleep P delay w1 else w1)
         (TTL_DURATION s)
         (trace s
          ++ [Spawn command;
              Printed ("Command failed (attempt " ++ PyStr.of_Z (attempt + 1) ++ "): " ++ command);
              Printed ("Error: " ++ PyStr.strip (decoded (stderr p)))]
          ++ (if (attempt <? max_retries - 1)%Z
              then [Printed ("Retrying in " ++ PyStr.of_Z delay ++ " seconds..."); Sleep delay]
              else []))%list).
Proof.
  intros Hsh Hrc Herr. cbn [az_attempts].
  unfold bind at 1. unfold subprocess at 1. rewrite Hsh.
  destruct (Z.eqb_spec (returncode p) 0) as [E|_]; [contradiction|].
  destruct (stderr p) as [err|]; [|contradiction]. cbn [decode lift decoded].
  unfold bind, print, emit, asyncio_sleep, ret.
  destruct (attempt <? max_retries - 1)%Z; cbn [world TTL_DURATION trace];
    rewrite <- ?app_assoc; cbn [app]; rewrite ?app_nil_r; reflexivity.
Qed.

(** One failed attempt whose standard error is not UTF-8: the loop ends
    there, with an exception. *)
Lemma az_attempts_garbled_step (command : string) (max_retries delay : Z) (todo : nat)
    (attempt : Z) (last : option Completed) (s : Sys World) (p : Completed) (w1 : World) :
  shell P command (world s) = (p, w1) ->
  returncode p <> 0%Z ->
  stderr p = NotUtf8 ->
  az_attempts P command max_retries delay (S todo) attempt last s
  = (Raise UnicodeDecodeError,
     mkSys w1 (TTL_DURATION s)
       (trace s
        ++ [Spawn command;
            Printed ("Command failed (attempt " ++ PyStr.of_Z (attempt + 1) ++ "): "
                     ++ command)])%list).
Proof.
  intros Hsh Hrc Herr. cbn [az_attempts].
  unfold bind at 1. unfold subprocess at 1. rewrite Hsh.
  destruct (Z.eqb_spec (returncode p) 0) as [E|_]; [contradiction|].
  rewrite Herr. cbn [decode lift]. unfold bind, print, emit, raise.
  cbn [world TTL_DURATION trace]. now rewrite <- app_assoc.
Qed.

(** An attempt that exits with status 0. *)
Lemma az_attempts_success_step (command : string) (max_retries delay : Z) (todo : nat)
    (attempt : Z) (last : option Completed) (s : Sys World) (p : Completed) (w1 : World) :
  shell P command (world s) = (p, w1) ->
  returncode p = 0%Z ->
  az_attempts P command max_retries delay (S todo) attempt last s
  = (match decode (stdout p), decode (stderr p) with
     | Ok out, Ok err => Ok (PyStr.strip out, PyStr.strip err, 0%Z)
     | Ok _, Raise e => Raise e
     | Raise e, _ => Raise e
     end,
     mkSys w1 (TTL_DURATION s) (trace s ++ [Spawn command])%list).
Proof.
  intros Hsh Hrc. cbn [az_attempts].
  unfold bind at 1. unfold subprocess at 1. rewrite Hsh, Hrc. cbn [Z.eqb].
  destruct (stdout p), (stderr p); reflexivity.
Qed.

Lemma az_attempts_bounded (command : string) (max_retries delay : Z) (todo : nat) :
  forall (attempt : Z) (last : option Completed) (w : World) (ttl : Z),
  exists r w' evs,
    runs (az_attempts P command max_retries delay todo attempt last) w ttl r w' evs
    /\ Forall (executor_event command) evs
    /\ length (spawns evs) <= todo.
Proof.
  induction todo as [|todo IH]; intros attempt last w ttl.
  - destruct last as [p|].
    + exists (match decode (stderr p) with
              | Ok err => Ok ("", PyStr.strip err, returncode p)
              | Raise e => Raise e
              end), w, [].
      split; [|split; [constructor | cbn; lia]].
      intros t. cbn [az_attempts]. rewrite app_nil_r. now destruct (stderr p).
    + exists (Raise UnboundLocalError), w, [].
      split; [|split; [constructor | cbn; lia]].
      intros t. cbn [az_attempts]. unfold raise. now rewrite app_nil_r.
  - destruct (shell P command w) as [p w1] eqn:Hsh.
    destruct (Z.eq_dec (returncode p) 0) as [E|E].
    + eexists. exists w1, [Spawn command].
      split; [|split; [repeat constructor | cbn; lia]].
      intros t. rewrite (az_attempts_success_step _ _ _ _ _ _ (mkSys w ttl t) p w1 Hsh E).
      reflexivity.
    + destruct (stderr p) as [err|] eqn:Herr.
      * destruct (IH (attempt + 1)%Z (Some p)
                    (if (attempt <? max_retries - 1)%Z then sleep P delay w1 else w1) ttl)
          as (r & w' & evs & Hr & Hevs & Hlen).
        exists r, w'.
        exists ([Spawn command;
                 Printed ("Command failed (attempt " ++ PyStr.of_Z (attempt + 1) ++ "): "
                          ++ command);
                 Printed ("Error: " ++ PyStr.strip err)]
                ++ (if (attempt <? max_retries - 1)%Z
                    then [Printed ("Retrying in " ++ PyStr.of_Z delay ++ " seconds...");
                          Sleep delay]
                    else [])
                ++ evs)%list.
        split; [|split].
        -- intros t.
           rewrite (az_attempts_failed_step _ _ _ _ _ _ (mkSys w ttl t) p w1 Hsh E)
             by (rewrite Herr; discriminate).
           cbn [world TTL_DURATION trace]. rewrite Hr, Herr. cbn [decoded].
           now rewrite <- !app_assoc.
        -- repeat (apply Forall_cons; [cbn; trivial|]).
           apply Forall_app. split; [|exact Hevs].
           destruct (attempt <? max_retries - 1)%Z; repeat constructor.
        -- rewrite !spawns_app. destruct (attempt <? max_retries - 1)%Z; cbn; lia.
      * exists (Raise UnicodeDecodeError), w1,
          [Spawn command;
           Printed ("Command failed (attempt " ++ PyStr.of_Z (attempt + 1) ++ "): "
                    ++ command)].
        split; [|split; [repeat constructor | cbn; lia]].
        intros t. rewrite (az_attempts_garbled_step _ _ _ _ _ _ (mkSys w ttl t) p w1 Hsh E Herr).
        reflexivity.
Qed.

Lemma az_attempts_runs (command : string) (max_retries delay : Z) (todo : nat) :
  forall (attempt : Z) (last : option Completed) (w : World) (ttl : Z),
  exists r w' evs,
    runs (az_attempts P command max_retries delay todo attempt last) w ttl r w' evs
    /\ Forall (executor_event command) evs.
Proof.
  intros attempt last w ttl.
  destruct (az_attempts_bounded command max_retries delay todo attempt last w ttl)
    as (r & w' & evs & Hr & Hevs & _).
  now exists r, w', evs.
Qed.

(** The executor leaves the global alone, spawns only its command and
    writes to no file; its result and the world it leaves depend on the
    world it starts in, not on the events before. *)
Lemma run_az_command_runs (command : string) (max_retries delay : Z) (w : World) (ttl : Z) :
  exists r w' evs,
    runs (run_az_command P command max_retries delay) w ttl r w' evs
    /\ Forall (executor_event command) evs.
Proof. apply az_attempts_runs. Qed.

Lemma az_attempts_all_fail (command : string) (max_retries delay : Z) (todo : nat) :
  forall (attempt : Z) (last : option Completed) (s : Sys World),
    (Z.of_nat (S todo) + attempt = max_retries)%Z ->
    (forall k, k <= todo ->
               returncode (attempt_result P command delay k (world s)) <> 0%Z
               /\ stderr (attempt_result P command delay k (world s)) <> NotUtf8) ->
    exists s',
      az_attempts P command max_retries delay (S todo) attempt last s
      = (Ok ("", PyStr.strip (decoded (stderr (attempt_result P command delay todo (world s)))),
             returncode (attempt_result P command delay todo (world s))), s')
      /\ spawns (trace s') = (spawns (trace s) ++ repeat command (S todo))%list.
Proof.
  induction todo as [|todo IH]; intros attempt last s Hn Hfail;
    destruct (Hfail 0 (Nat.le_0_l _)) as [H0 H0']; unfold attempt_result in H0, H0' |- *;
    cbn [world_before_attempt] in H0, H0' |- *;
    destruct (shell P command (world s)) as [p w1] eqn:Hsh; cbn [fst snd] in H0, H0' |- *;
    rewrite (az_attempts_failed_step _ _ _ _ _ _ _ p w1 Hsh H0 H0').
  - destruct (Z.ltb_spec attempt (max_retries - 1)) as [L|_]; [lia|].
    cbn [az_attempts]. destruct (stderr p) as [err|]; [|contradiction].
    cbn [decode lift decoded]. erewrite bind_step by reflexivity.
    unfold ret. eexists. split; [reflexivity|].
    cbn [trace]. rewrite !spawns_app. reflexivity.
  - destruct (Z.ltb_spec attempt (max_retries - 1)) as [_|L]; [|lia].
    match goal with
    | |- context [az_attempts P command max_retries delay (S todo) ?a ?l ?s1] =>
        destruct (IH a l s1) as (s' & Hs' & Hsp)
    end.
    + lia.
    + intros k Hk. specialize (Hfail (S k) (le_n_S _ _ Hk)).
      unfold attempt_result in Hfail |- *. cbn [world_before_attempt] in Hfail.
      rewrite Hsh in Hfail. exact Hfail.
    + exists s'. split.
      * rewrite Hs'. unfold attempt_result. reflexivity.
      * rewrite Hsp. cbn [trace]. rewrite !spawns_app. cbn [spawns repeat app].
        rewrite <- app_assoc. reflexivity.
Qed.

(** C2, as the code has it: with [max_retries] at least 1 and every attempt
    exiting with a non-zero status and a standard error that is UTF-8, the
    executor runs the command exactly [max_retries] times and returns, as a
    value, an empty standard output together with the stripped standard
    error and the exit status of the last attempt. *)
Theorem run_az_command_exhausted (command : string) (max_retries delay : Z) (s : Sys World) :
  (1 <= max_retries)%Z ->
  (forall k, k < Z.to_nat max_retries ->
             returncode (attempt_result P command delay k (world s)) <> 0%Z
             /\ stderr (attempt_result P command delay k (world s)) <> NotUtf8) ->
  let last := attempt_result P command delay (Z.to_nat max_retries - 1) (world s) in
  exists s',
    run_az_command P command max_retries delay s
    = (Ok ("", PyStr.strip (decoded (stderr last)), returncode last), s')
    /\ spawns (trace s') = (spawns (trace s) ++ repeat command (Z.to_nat max_retries))%list.
Proof.
  intros Hpos Hfail last. unfold run_az_command, last.
  destruct (Z.to_nat max_retries) as [|todo] eqn:Hn; [lia|].
  replace (S todo - 1) with todo by lia.
  apply az_attempts_all_fail.
  - lia.
  - intros k Hk. apply Hfail. lia.
Qed.

End Executor.

Lemma run_az_command_exhausted_witness :
  (1 <= 3)%Z
  /\ exists s',
      run_az_command Scenario.always_failing "az account show" 3 5 Scenario.start
      = (Ok ("", "boom", 1%Z), s')
      /\ spawns (trace s') = ["az account show"; "az account show"; "az account show"].
Proof.
  split; [lia|].
  apply (run_az_command_exhausted Scenario.always_failing "az account show" 3 5 Scenario.start).
  - lia.
  - intros k _. split; discriminate.
Defined.

(** C2, as the specification states it, fails three times.  The standard
    output captured by the last attempt is not returned: an empty text is.
    With [max_retries = 0] the command is never run and the executor raises
    [UnboundLocalError] instead of returning a value.  And a command that
    fails with a standard error that is not UTF-8 is run once, not
    [max_retries] times, and the executor raises [UnicodeDecodeError]. *)
Lemma run_az_command_not_last_result :
  stdout (attempt_result Scenario.always_failing "az account show" 5 2 tt)
  = Utf8 "partial output"
  /\ fst (run_az_command Scenario.always_failing "az account show" 3 5 Scenario.start)
     = Ok ("", "boom", 1%Z)
  /\ run_az_command Scenario.always_failing "az account show" 0 5 Scenario.start
     = (Raise UnboundLocalError, Scenario.start)
  /\ run_az_command Scenario.garbled_failure "az account show" 3 5 Scenario.start
     = (Raise UnicodeDecodeError,
        mkSys tt 7%Z [Spawn "az account show";
                      Printed "Command failed (attempt 1): az account show"]).
Proof. repeat split. Qed.

(** ** Inventory Resolver *)

Section Resolver.

Context {World : Type} (P : Platform World).

#[local] Arguments String.append : simpl never.

Lemma resolve_loop_spec (exclude_keywords : option (list string)) (inventory : string) :
  files P inventory_file = Text inventory ->
  forall (hostnames vm_list excluded_vms : list string) (s : Sys World),
    resolve_loop P exclude_keywords hostnames vm_list excluded_vms s
    = (Ok ((vm_list ++ resolved exclude_keywords (PyStr.readlines inventory) hostnames)%list,
           (excluded_vms
            ++ filter (is_excluded exclude_keywords (PyStr.readlines inventory)) hostnames)%list),
       mkSys (world s) (TTL_DURATION s)
         (trace s ++ map warning (filter (not_found (PyStr.readlines inventory)) hostnames))%list).
Proof.
  intros Hinv hostnames.
  induction hostnames as [|h rest IH]; intros vm_list excluded_vms s.
  - simpl. unfold ret. rewrite !app_nil_r. now destruct s.
  - cbn [resolve_loop]. unfold bind at 1. unfold get_vm_info, read_text. rewrite Hinv.
    unfold bind at 1. unfold ret at 1. unfold ret at 1.
    unfold resolved, is_excluded, not_found. cbn [flat_map filter]. unfold resolved_line at 1.
    destruct (first_match h (PyStr.readlines inventory)) as [info|].
    + destruct (PyStr.truthy info).
      * destruct (keyword_hit exclude_keywords info); cbn [andb negb].
        -- rewrite IH. cbn [app]. unfold is_excluded, not_found, resolved.
           now rewrite <- app_assoc.
        -- rewrite IH. unfold is_excluded, not_found, resolved.
           now rewrite <- app_assoc.
      * cbn [andb negb map]. unfold bind, print, emit. rewrite IH. cbn [world TTL_DURATION trace app].
        unfold is_excluded, not_found, resolved, warning.
        now rewrite <- app_assoc.
    + cbn [map]. unfold bind, print, emit. rewrite IH. cbn [world TTL_DURATION trace app].
      unfold is_excluded, not_found, resolved, warning.
      now rewrite <- app_assoc.
Qed.

Lemma extract_vm_info_spec (host_file : string) (exclude_keywords : option (list string))
    (inventory hosts : string) (s : Sys World) :
  files P inventory_file = Text inventory ->
  files P host_file = Text hosts ->
  let lines := PyStr.readlines inventory in
  let hostnames := PyStr.splitlines hosts in
  extract_vm_info P host_file exclude_keywords s
  = (Ok (Some (resolved exclude_keywords lines hostnames), None),
     mkSys (world s) (TTL_DURATION s)
       (trace s ++ map warning (filter (not_found lines) hostnames)
        ++ exclusion_notice (filter (is_excluded exclude_keywords lines) hostnames))%list).
Proof.
  intros Hinv Hhost lines hostnames. unfold extract_vm_info, path_exists.
  rewrite Hinv, Hhost. cbn [negb]. unfold read_text. rewrite Hhost.
  unfold bind at 1. unfold ret at 1.
  unfold bind at 1. rewrite (resolve_loop_spec _ _ Hinv). cbn [app].
  fold lines. fold hostnames.
  destruct (filter (is_excluded exclude_keywords lines) hostnames) as [|x xs];
    unfold bind, ret, print, emit; cbn [exclusion_notice world TTL_DURATION trace].
  - now rewrite app_nil_r.
  - now rewrite <- app_assoc.
Qed.




Lemma readlines_from_cons (text cur : string) :
  PyStr.is_empty cur = false \/ PyStr.is_empty text = false ->
  exists line rest, PyStr.readlines_from cur text = line :: rest.
Proof.
  revert cur. induction text as [|c t IH]; intros cur H; cbn [PyStr.readlines_from].
  - destruct H as [H|H]; [|discriminate]. rewrite H. eauto.
  - destruct (Ascii.eqb c PyStr.LF); [eauto|].
    apply IH. left. unfold PyStr.snoc. now destruct cur.
Qed.

Lemma contains_empty (hay : string) : PyStr.contains "" hay = true.
Proof. destruct hay; reflexivity. Qed.

Lemma resolved_without_blank (exclude_keywords : option (list string))
    (lines hostnames : list string) :
  resolved_line exclude_keywords lines "" = [] ->
  resolved exclude_keywords lines hostnames
  = resolved exclude_keywords lines
      (filter (fun hostname => negb (PyStr.is_empty hostname)) hostnames).
Proof.
  intros Hblank. unfold resolved.
  induction hostnames as [|h rest IH]; [reflexivity|].
  cbn [flat_map filter]. destruct h as [|c h]; cbn [PyStr.is_empty negb].
  - now rewrite Hblank.
  - cbn [flat_map]. now rewrite IH.
Qed.

(** C10, as the code has it: with a non-empty inventory, the empty host
    name of a blank line of the host list is matched with the first line of
    the inventory, and the resolution returns a list of VMs.  What the blank
    line gives depends on that first line, stripped.  When it is not empty
    and holds no exclusion keyword, it is one of the resolved VMs.  When it
    is empty, the warning that no information was found is printed for the
    empty host name.  When it holds an exclusion keyword, the empty host name
    is one of the excluded names of the notice.  In the last two cases the
    resolved VMs are those of the host list without its blank lines. *)
Theorem blank_hostname_first_line (host_file : string)
    (exclude_keywords : option (list string)) (inventory hosts : string) (s : Sys World) :
  files P inventory_file = Text inventory ->
  inventory <> "" ->
  files P host_file = Text hosts ->
  In "" (PyStr.splitlines hosts) ->
  exists line rest vm_list s',
    PyStr.readlines inventory = line :: rest
    /\ first_match "" (PyStr.readlines inventory) = Some (PyStr.strip line)
    /\ extract_vm_info P host_file exclude_keywords s = (Ok (Some vm_list, None), s')
    /\ (PyStr.strip line <> "" ->
        keyword_hit exclude_keywords (PyStr.strip line) = false ->
        In (PyStr.strip line) vm_list)
    /\ (PyStr.strip line = "" ->
        In (warning "") (trace s')
        /\ vm_list
           = resolved exclude_keywords (PyStr.readlines inventory)
               (filter (fun hostname => negb (PyStr.is_empty hostname))
                  (PyStr.splitlines hosts)))
    /\ (PyStr.strip line <> "" ->
        keyword_hit exclude_keywords (PyStr.strip line) = true ->
        (exists excluded_vms,
            In "" excluded_vms
            /\ In (Printed ("Excluded VMs based on keywords: "
                            ++ PyStr.join ", " excluded_vms)) (trace s'))
        /\ vm_list
           = resolved exclude_keywords (PyStr.readlines inventory)
               (filter (fun hostname => negb (PyStr.is_empty hostname))
                  (PyStr.splitlines hosts))).
Proof.
  intros Hinv Hne Hhost Hblank.
  destruct (readlines_from_cons inventory "") as (line & rest & Hlines).
  { right. destruct inventory; [contradiction | reflexivity]. }
  fold (PyStr.readlines inventory) in Hlines.
  assert (Hfirst : first_match "" (PyStr.readlines inventory) = Some (PyStr.strip line)).
  { rewrite Hlines. cbn [first_match]. now rewrite contains_empty. }
  assert (Htruthy : PyStr.strip line <> "" -> PyStr.truthy (PyStr.strip line) = true).
  { intros H. destruct (PyStr.strip line); [contradiction | reflexivity]. }
  exists line, rest. eexists. eexists.
  split; [exact Hlines|]. split; [exact Hfirst|].
  split; [apply (extract_vm_info_spec _ _ _ _ _ Hinv Hhost)|].
  cbn [trace]. split; [|split].
  - intros Hfull Hhit. unfold resolved. apply in_flat_map. exists "". split; [assumption|].
    unfold resolved_line. rewrite Hfirst, (Htruthy Hfull), Hhit. now left.
  - intros Hempty. split.
    + apply in_or_app. right. apply in_or_app. left. apply in_map. apply filter_In.
      split; [assumption|]. unfold not_found. rewrite Hfirst, Hempty. reflexivity.
    + apply resolved_without_blank. unfold resolved_line. rewrite Hfirst, Hempty. reflexivity.
  - intros Hfull Hhit.
    assert (Hin : In "" (filter (is_excluded exclude_keywords (PyStr.readlines inventory))
                           (PyStr.splitlines hosts))).
    { apply filter_In. split; [assumption|].
      unfold is_excluded. now rewrite Hfirst, (Htruthy Hfull), Hhit. }
    split.
    + eexists. split; [exact Hin|].
      apply in_or_app. right. apply in_or_app. right.
      destruct (filter (is_excluded exclude_keywords (PyStr.readlines inventory))
                  (PyStr.splitlines hosts)) as [|x xs]; [contradiction|].
      now left.
    + apply resolved_without_blank. unfold resolved_line.
      now rewrite Hfirst, (Htruthy Hfull), Hhit.
Qed.

End Resolver.


Lemma blank_hostname_first_line_witness :
  In "" (PyStr.splitlines ("vm2" ++ Scenario.LF ++ Scenario.LF))
  /\ (exists vm_list s',
        extract_vm_info Scenario.blank_host_line "hosts.txt" None Scenario.start
        = (Ok (Some vm_list, None), s')
        /\ In "/subscriptions/S1/rg/vm1 vm1" vm_list)
  /\ (exists vm_list s',
        extract_vm_info Scenario.blank_lines "hosts.txt" None Scenario.start
        = (Ok (Some vm_list, None), s')
        /\ In (warning "") (trace s')
        /\ vm_list = ["/subscriptions/S1/rg/vm1 vm1"; "/subscriptions/S2/rg/vm2 vm2"])
  /\ (exists vm_list s' excluded_vms,
        extract_vm_info Scenario.blank_host_line "hosts.txt" (Some ["VM1"]) Scenario.start
        = (Ok (Some vm_list, None), s')
        /\ In "" excluded_vms
        /\ In (Printed ("Excluded VMs based on keywords: " ++ PyStr.join ", " excluded_vms))
             (trace s')
        /\ vm_list = ["/subscriptions/S2/rg/vm2 vm2"]).
Proof.
  assert (H : In "" (PyStr.splitlines ("vm2" ++ Scenario.LF ++ Scenario.LF))).
  { right. left. reflexivity. }
  assert (H' : In "" (PyStr.splitlines ("vm1" ++ Scenario.LF ++ Scenario.LF ++ "vm2"
                                        ++ Scenario.LF))).
  { right. left. reflexivity. }
  split; [exact H|]. split; [|split].
  - destruct (blank_hostname_first_line Scenario.blank_host_line "hosts.txt" None
                Scenario.inventory_2 ("vm2" ++ Scenario.LF ++ Scenario.LF) Scenario.start
                eq_refl ltac:(discriminate) eq_refl H)
      as (line & rest & vm_list & s' & Hlines & _ & Hrun & Hresolved & _ & _).
    vm_compute in Hlines. injection Hlines as Hline Hrest. subst line rest.
    exists vm_list, s'. split; [exact Hrun|].
    apply Hresolved; [discriminate | reflexivity].
  - destruct (blank_hostname_first_line Scenario.blank_lines "hosts.txt" None
                (Scenario.LF ++ Scenario.inventory_2)
                ("vm1" ++ Scenario.LF ++ Scenario.LF ++ "vm2" ++ Scenario.LF) Scenario.start
                eq_refl ltac:(discriminate) eq_refl H')
      as (line & rest & vm_list & s' & Hlines & _ & Hrun & _ & Hblank & _).
    vm_compute in Hlines. injection Hlines as Hline Hrest. subst line rest.
    exists vm_list, s'. split; [exact Hrun|].
    exact (Hblank eq_refl).
  - destruct (blank_hostname_first_line Scenario.blank_host_line "hosts.txt" (Some ["VM1"])
                Scenario.inventory_2 ("vm2" ++ Scenario.LF ++ Scenario.LF) Scenario.start
                eq_refl ltac:(discriminate) eq_refl H)
      as (line & rest & vm_list & s' & Hlines & _ & Hrun & _ & _ & Hexcluded).
    vm_compute in Hlines. injection Hlines as Hline Hrest. subst line rest.
    destruct Hexcluded as ((excluded_vms & Hin & Hnotice) & Hlist);
      [discriminate | reflexivity |].
    exists vm_list, s', excluded_vms. repeat split; assumption.
Defined.

(** C10, as stated, fails.  When the inventory starts with an empty line,
    the empty host name is matched with it, the stripped line is empty, and
    the host name is reported as not found.  When the first line holds an
    exclusion keyword, the empty host name is excluded.  Neither run
    resolves a VM for the blank line of the host list. *)
Lemma blank_hostname_not_resolved :
  extract_vm_info Scenario.blank_lines "hosts.txt" None Scenario.start
  = (Ok (Some ["/subscriptions/S1/rg/vm1 vm1"; "/subscriptions/S2/rg/vm2 vm2"], None),
     mkSys tt 7%Z [warning ""])
  /\ extract_vm_info Scenario.blank_host_line "hosts.txt" (Some ["VM1"]) Scenario.start
     = (Ok (Some ["/subscriptions/S2/rg/vm2 vm2"], None),
        mkSys tt 7%Z [Printed "Excluded VMs based on keywords: "]).
Proof. split; reflexivity. Qed.

(** ** Snapshot Worker *)

Section Worker.

Context {World : Type} (P : Platform World).

#[local] Arguments String.append : simpl never.

Lemma executor_events_append_nothing (command path : string) (evs : list event) :
  Forall (executor_event command) evs -> appended path evs = [].
Proof.
  induction 1 as [|e evs He _ IH]; [reflexivity|].
  destruct e; cbn in He |- *; try contradiction; exact IH.
Qed.

Lemma executor_events_spawns (command : string) (evs : list event) :
  Forall (executor_event command) evs -> Forall (eq command) (spawns evs).
Proof.
  induction 1 as [|e evs He _ IH]; [constructor|].
  destruct e; cbn in He |- *; try contradiction; auto.
Qed.

Lemma appended_other (path other text : string) (t : list event) :
  other <> path ->
  appended path (t ++ [Append other text]) = appended path t.
Proof.
  intros Hne. rewrite appended_app. cbn.
  destruct (String.eqb_spec other path); [contradiction|]. apply app_nil_r.
Qed.

(** C5: when the snapshot-create command succeeds and the decoded answer
    is an object without [id], the worker returns the VM with the reason
    "Failed to extract snapshot ID", appends nothing to the snapshot
    registry, and the orchestrator puts the VM in the failed list. *)
Theorem missing_id_reported_failed
    (resource_id vm_name : string) (resource_group disk_id : json)
    (chg_number timestamp log_file user_id : string) (s : Sys World)
    (out err : string) (fields : list (string * json)) :
  log_file <> snap_rid_list_file ->
  fst (run_az P
         (snapshot_create_command (snapshot_name_of chg_number vm_name timestamp)
            (py_str P resource_group) (py_str P disk_id) user_id) s)
  = Ok (out, err, 0%Z) ->
  json_loads P out = Some (JObject fields) ->
  assoc "id" fields = None ->
  exists s',
    process_vm P resource_id vm_name resource_group disk_id
      chg_number timestamp log_file user_id s
    = (Ok (vm_name, "Failed to extract snapshot ID"), s')
    /\ appended snap_rid_list_file (trace s') = appended snap_rid_list_file (trace s)
    /\ forall successful_snapshots failed_snapshots,
        collect [(vm_name, "Failed to extract snapshot ID")] successful_snapshots failed_snapshots
        = (successful_snapshots,
           (failed_snapshots ++ [(vm_name, "Failed to extract snapshot ID")])%list).
Proof.
  intros Hlog Hrun Hjson Hid.
  destruct (run_az_command_runs P
              (snapshot_create_command (snapshot_name_of chg_number vm_name timestamp)
                 (py_str P resource_group) (py_str P disk_id) user_id) 3 5
              (world s) (TTL_DURATION s))
    as (r & w' & evs & Hruns & Hevs).
  unfold run_az in Hrun. rewrite (runs_at _ _ _ _ _ Hruns) in Hrun. cbn [fst] in Hrun. subst r.
  unfold process_vm, run_az. do 6 step. cbn [world TTL_DURATION trace].
  erewrite bind_step by (apply Hruns).
  cbn [Z.eqb negb]. step.
  unfold loads. rewrite Hjson. do 3 step.
  cbn [dict_get lift]. step. rewrite Hid. step.
  eexists. split; [reflexivity|]. split.
  - cbn [trace world TTL_DURATION]. unfold log_entry.
    rewrite !appended_other by assumption.
    rewrite appended_app, (executor_events_append_nothing _ _ _ Hevs), app_nil_r.
    now rewrite !appended_other by assumption.
  - intros successful_snapshots failed_snapshots. reflexivity.
Qed.

End Worker.

Lemma missing_id_reported_failed_witness :
  "logs/run.txt" <> snap_rid_list_file
  /\ exists s',
      process_vm Scenario.answer_without_id "/subscriptions/S1/rg/vm1" "vm1"
        (JString "rg") (JString "disk") "123" "20240101000000" "logs/run.txt" "alice"
        Scenario.start
      = (Ok ("vm1", "Failed to extract snapshot ID"), s')
      /\ appended snap_rid_list_file (trace s')
         = appended snap_rid_list_file (trace Scenario.start)
      /\ forall successful_snapshots failed_snapshots,
          collect [("vm1", "Failed to extract snapshot ID")] successful_snapshots failed_snapshots
          = (successful_snapshots,
             (failed_snapshots ++ [("vm1", "Failed to extract snapshot ID")])%list).
Proof.
  split; [discriminate|].
  apply (missing_id_reported_failed Scenario.answer_without_id "/subscriptions/S1/rg/vm1" "vm1"
           (JString "rg") (JString "disk") "123" "20240101000000" "logs/run.txt" "alice"
           Scenario.start "snapshot" "" [("name", JString "snap")]);
    [discriminate | reflexivity | reflexivity | reflexivity].
Defined.

(** ** Orchestrator *)

Section Orchestrator.

Context {World : Type} (P : Platform World).

#[local] Arguments String.append : simpl never.

Lemma set_subscription_is_no_snapshot (subscription_id name rg disk user : string) :
  set_subscription_command subscription_id <> snapshot_create_command name rg disk user.
Proof. unfold set_subscription_command, snapshot_create_command. cbn. discriminate. Qed.

(** C6: when the command that selects the subscription of a group fails
    after the retries of the executor, every VM of the group is added to
    the failed list with the reason "Failed to set subscription", the only
    command spawned for the group is that one, so no snapshot is attempted,
    and the loop goes on with the next group. *)
Theorem subscription_failure_fails_group
    (chg_number timestamp log_file user_id subscription_id : string)
    (vms : list (string * string)) (rest : grouping)
    (successful_snapshots failed_snapshots : outcomes) (s : Sys World)
    (out err : string) (rc : Z) :
  fst (run_az P (set_subscription_command subscription_id) s) = Ok (out, err, rc) ->
  rc <> 0%Z ->
  let failed_snapshots' :=
    (failed_snapshots ++ map (fun vm => (snd vm, "Failed to set subscription")) vms)%list in
  exists s' spawned,
    process_group P chg_number timestamp log_file user_id (subscription_id, vms)
      successful_snapshots failed_snapshots s
    = (Ok (successful_snapshots, failed_snapshots'), s')
    /\ spawns (trace s') = (spawns (trace s) ++ spawned)%list
    /\ Forall (eq (set_subscription_command subscription_id)) spawned
    /\ (forall name rg disk user, ~ In (snapshot_create_command name rg disk user) spawned)
    /\ process_groups P chg_number timestamp log_file user_id ((subscription_id, vms) :: rest)
         successful_snapshots failed_snapshots s
       = process_groups P chg_number timestamp log_file user_id rest
           successful_snapshots failed_snapshots' s'.
Proof.
  intros Hrun Hrc failed_snapshots'.
  destruct (run_az_command_runs P (set_subscription_command subscription_id) 3 5
              (world s) (TTL_DURATION s)) as (r & w' & evs & Hruns & Hevs).
  unfold run_az in Hrun. rewrite (runs_at _ _ _ _ _ Hruns) in Hrun. cbn [fst] in Hrun. subst r.
  assert (Hgroup :
    process_group P chg_number timestamp log_file user_id (subscription_id, vms)
      successful_snapshots failed_snapshots s
    = (Ok (successful_snapshots, failed_snapshots'),
       mkSys w' (TTL_DURATION s)
         (trace s ++ evs
          ++ [log_entry P w' log_file ("Failed to set subscription ID: " ++ subscription_id);
              log_entry P w' log_file ("Error: " ++ err)])%list)).
  { unfold process_group, run_az.
    erewrite bind_step by (apply (runs_at _ _ _ _ _ Hruns)).
    cbn beta iota. destruct (Z.eqb_spec rc 0) as [E|_]; [contradiction|]. cbn [negb].
    do 2 step. cbn [world TTL_DURATION trace]. unfold ret.
    rewrite <- !app_assoc. reflexivity. }
  eexists. exists (spawns evs). split; [exact Hgroup|].
  pose proof (executor_events_spawns _ _ Hevs) as Hsp.
  split; [|split; [|split]].
  - cbn [trace]. rewrite !spawns_app. cbn. now rewrite app_nil_r.
  - exact Hsp.
  - intros name rg disk user Hin. rewrite Forall_forall in Hsp.
    apply Hsp in Hin. now apply set_subscription_is_no_snapshot in Hin.
  - cbn [process_groups]. erewrite bind_step by exact Hgroup. reflexivity.
Qed.

Lemma fetch_details_count (chg_number timestamp log_file user_id : string)
    (vms : list (string * string)) :
  forall (tasks tasks' : list (M World (string * string)))
         (failed_snapshots failed_snapshots' : outcomes) (s s' : Sys World),
    fetch_details P chg_number timestamp log_file user_id vms tasks failed_snapshots s
    = (Ok (tasks', failed_snapshots'), s') ->
    length tasks' + length failed_snapshots'
    = length tasks + length failed_snapshots + length vms.
Proof.
  induction vms as [|[resource_id vm_name] rest IH];
    intros tasks tasks' failed failed' s s' H; cbn [fetch_details] in H.
  - unfold ret in H. injection H as <- <- _. cbn. lia.
  - bind_inv H. destruct a as [[out err] rc].
    destruct (negb (rc =? 0)%Z).
    + do 2 step_in H. apply IH in H. rewrite H, length_app. cbn. lia.
    + bind_inv H. bind_inv H. bind_inv H.
      apply IH in H. rewrite H, length_app. cbn. lia.
Qed.

Lemma gather_count (tasks : list (M World (string * string))) :
  forall (results : outcomes) (s s' : Sys World),
    gather tasks s = (Ok results, s') -> length results = length tasks.
Proof.
  induction tasks as [|task rest IH]; intros results s s' H; cbn [gather] in H.
  - unfold ret in H. now injection H as <- _.
  - bind_inv H. bind_inv H. unfold ret in H. injection H as <- _.
    cbn. f_equal. eapply IH. eassumption.
Qed.

Lemma collect_count (results : outcomes) :
  forall successful_snapshots failed_snapshots : outcomes,
    length (fst (collect results successful_snapshots failed_snapshots))
    + length (snd (collect results successful_snapshots failed_snapshots))
    = length successful_snapshots + length failed_snapshots + length results.
Proof.
  induction results as [|[vm_name result] rest IH]; intros succ failed; cbn [collect].
  - cbn. lia.
  - destruct (negb (PyStr.contains "Failed" result)); rewrite IH, length_app; cbn; lia.
Qed.

(** One group adds as many entries to the two lists as it has VMs. *)
Lemma process_group_count (chg_number timestamp log_file user_id : string)
    (group : string * list (string * string))
    (succ failed succ' failed' : outcomes) (s s' : Sys World) :
  process_group P chg_number timestamp log_file user_id group succ failed s
  = (Ok (succ', failed'), s') ->
  length succ' + length failed' = length succ + length failed + length (snd group).
Proof.
  destruct group as [subscription_id vms]. unfold process_group. intros H.
  bind_inv H. destruct a as [[out err] rc].
  destruct (negb (rc =? 0)%Z).
  - do 2 step_in H. unfold ret in H. injection H as <- <- _.
    rewrite length_app, length_map. cbn. lia.
  - step_in H. bind_inv H. destruct a as [tasks failed1].
    bind_inv H. unfold ret in H. injection H as H _.
    apply fetch_details_count in Ha0. apply gather_count in Ha1.
    pose proof (collect_count a succ failed1) as Hc. rewrite H in Hc.
    cbn in Hc, Ha0 |- *. lia.
Qed.

Lemma process_groups_count (chg_number timestamp log_file user_id : string)
    (grouped_vms : grouping) :
  forall (succ failed succ' failed' : outcomes) (s s' : Sys World),
    process_groups P chg_number timestamp log_file user_id grouped_vms succ failed s
    = (Ok (succ', failed'), s') ->
    length succ' + length failed'
    = length succ + length failed + group_size grouped_vms.
Proof.
  induction grouped_vms as [|group rest IH]; intros succ failed succ' failed' s s' H;
    cbn [process_groups] in H.
  - unfold ret in H. injection H as <- <- _. cbn. lia.
  - bind_inv H. destruct a as [succ1 failed1].
    apply process_group_count in Ha. apply IH in H.
    change (group_size (group :: rest)) with (length (snd group) + group_size rest).
    lia.
Qed.

(** A run that reaches the summary went through the resolution, the
    grouping and the loop over the groups. *)
Lemma main_run_inv (host_file chg_number : string) (ttl_duration : Z)
    (exclude_keywords : option (list string)) (s s' : Sys World) (run : Run) :
  main_run P host_file chg_number ttl_duration exclude_keywords s = (Ok (inr run), s') ->
  exists vm_list error grouped_vms user_id s1 s2 s3,
    extract_vm_info P host_file exclude_keywords s1 = (Ok (Some vm_list, error), s2)
    /\ group_vms_by_subscription vm_list = Ok grouped_vms
    /\ process_groups P chg_number (now_compact P (world s)) (log_file run) user_id
         grouped_vms [] [] s3
       = (Ok (successful_snapshots run, failed_snapshots run), s')
    /\ total_vms run = length vm_list.
Proof.
  unfold main_run. intros H.
  bind_inv_as H u1 s1 H1. bind_inv_as H u2 s2 H2. bind_inv_as H timestamp s3 H3.
  bind_inv_as H u4 s4 H4. bind_inv_as H ttl s5 H5. bind_inv_as H u6 s6 H6.
  bind_inv_as H user s7 H7.
  unfold set_TTL_DURATION in H1. injection H1 as _ <-.
  unfold emit in H2. injection H2 as _ <-.
  unfold clock in H3. injection H3 as <- <-. cbn [world] in *.
  destruct user as [user_id|]; [|discriminate].
  destruct (negb (PyStr.truthy user_id)); [discriminate|].
  bind_inv_as H u8 s8 H8. bind_inv_as H resolution s9 H9.
  destruct resolution as [vm_list error].
  destruct (match error with Some error => PyStr.truthy error | None => false end);
    [discriminate|].
  destruct vm_list as [[|line vm_list]|]; try discriminate.
  bind_inv_as H grouped s10 H10. bind_inv_as H lists s11 H11. destruct lists as [succ failed].
  unfold ret in H. injection H as <- <-.
  unfold lift in H10. destruct (group_vms_by_subscription (line :: vm_list)) as [g|e] eqn:Hg;
    [|discriminate].
  unfold ret in H10. injection H10 as -> <-.
  exists (line :: vm_list), error. eexists. eexists. eexists. eexists. eexists.
  split; [eassumption|]. split; [eassumption|]. split; [eassumption|]. reflexivity.
Qed.

(** C1: in every run that passes authentication and the resolution of the
    inventory and reaches its end, the entries of the succeeded list and of
    the failed list are together as many as [total_vms], whichever commands
    failed; the three counts of the returned report add up in the same
    way. *)
Theorem outcome_counts_add_up (host_file chg_number : string) (ttl_duration : Z)
    (exclude_keywords : option (list string)) (s : Sys World) :
  (forall (run : Run) (s' : Sys World),
      main_run P host_file chg_number ttl_duration exclude_keywords s = (Ok (inr run), s') ->
      length (successful_snapshots run) + length (failed_snapshots run) = total_vms run)
  /\ (forall (total successful failed : nat) (log summary registry : string) (s' : Sys World),
        main P host_file chg_number ttl_duration exclude_keywords s
        = (Ok (Report total successful failed log summary registry), s') ->
        successful + failed = total).
Proof.
  assert (Hrun : forall (run : Run) (s' : Sys World),
      main_run P host_file chg_number ttl_duration exclude_keywords s = (Ok (inr run), s') ->
      length (successful_snapshots run) + length (failed_snapshots run) = total_vms run).
  { intros run s' H.
    destruct (main_run_inv _ _ _ _ _ _ _ H)
      as (vm_list & error & grouped & user_id & s1 & s2 & s3 & _ & Hg & Hloop & Htotal).
    apply process_groups_count in Hloop. apply group_vms_by_subscription_size in Hg.
    cbn in Hloop. lia. }
  split; [exact Hrun|].
  intros total successful failed log summary registry s' H.
  unfold main in H. bind_inv H. destruct a as [error|run].
  - unfold ret in H. discriminate.
  - bind_inv H. unfold ret in H. injection H as <- <- <- _ _ _ _.
    eapply Hrun. eassumption.
Qed.

Lemma resolved_not_hit (exclude_keywords : option (list string)) (lines hostnames : list string)
    (line : string) :
  In line (resolved exclude_keywords lines hostnames) ->
  keyword_hit exclude_keywords line = false.
Proof.
  unfold resolved. rewrite in_flat_map. intros (h & _ & Hin).
  unfold resolved_line in Hin. destruct (first_match h lines) as [info|]; [|contradiction].
  destruct (PyStr.truthy info); cbn [andb] in Hin; [|contradiction].
  destruct (keyword_hit exclude_keywords info) eqn:Hhit; cbn in Hin; [contradiction|].
  destruct Hin as [<-|[]]. exact Hhit.
Qed.

(** C7: a VM whose matched inventory line contains an exclusion keyword,
    whatever the case of the letters, is not in the resolved list, its host
    name is in the list of excluded VMs that is printed, and [total_vms] of
    a run is the length of the resolved list, which does not count it. *)
Theorem excluded_vm_absent (host_file : string) (keywords : list string)
    (inventory hosts hostname line keyword : string) (s : Sys World) :
  files P inventory_file = Text inventory ->
  files P host_file = Text hosts ->
  In hostname (PyStr.splitlines hosts) ->
  first_match hostname (PyStr.readlines inventory) = Some line ->
  PyStr.truthy line = true ->
  In keyword keywords ->
  PyStr.contains (PyStr.lower keyword) (PyStr.lower line) = true ->
  exists vm_list excluded_vms s',
    extract_vm_info P host_file (Some keywords) s = (Ok (Some vm_list, None), s')
    /\ ~ In line vm_list
    /\ In hostname excluded_vms
    /\ In (Printed ("Excluded VMs based on keywords: " ++ PyStr.join ", " excluded_vms)) (trace s')
    /\ forall (chg_number : string) (ttl_duration : Z) (s0 s1 : Sys World) (run : Run),
        main_run P host_file chg_number ttl_duration (Some keywords) s0 = (Ok (inr run), s1) ->
        total_vms run = length vm_list.
Proof.
  intros Hinv Hhost Hin Hmatch Htruthy Hkw Hcontains.
  assert (Hhit : keyword_hit (Some keywords) line = true).
  { cbn [keyword_hit]. apply existsb_exists. now exists keyword. }
  assert (Hex : In hostname
                  (filter (is_excluded (Some keywords) (PyStr.readlines inventory))
                     (PyStr.splitlines hosts))).
  { apply filter_In. split; [assumption|].
    unfold is_excluded. now rewrite Hmatch, Htruthy, Hhit. }
  eexists. eexists. eexists. split; [|split; [|split; [|split]]].
  - apply (extract_vm_info_spec P _ _ _ _ s Hinv Hhost).
  - intros Habs. apply resolved_not_hit in Habs. congruence.
  - exact Hex.
  - cbn [trace]. apply in_or_app. right. apply in_or_app. right.
    destruct (filter (is_excluded (Some keywords) (PyStr.readlines inventory))
                (PyStr.splitlines hosts)) as [|x xs]; [contradiction|].
    now left.
  - intros chg_number ttl_duration s0 s1 run Hrun.
    destruct (main_run_inv _ _ _ _ _ _ _ Hrun)
      as (vm_list & error & grouped & user_id & s2 & s3 & s4 & Hextract & _ & _ & Htotal).
    rewrite (extract_vm_info_spec P _ _ _ _ s2 Hinv Hhost) in Hextract.
    injection Hextract as <- _. exact Htotal.
Qed.

End Orchestrator.

Lemma subscription_failure_fails_group_witness :
  (1 <> 0)%Z
  /\ exists s' spawned,
      process_group Scenario.two_subscriptions "123" "20240101000000" "logs/run.txt" "alice"
        ("S2", [("/subscriptions/S2/rg/vm2", "vm2")]) [("vm1", "RH_123_vm1_20240101000000")] []
        Scenario.start
      = (Ok ([("vm1", "RH_123_vm1_20240101000000")], [("vm2", "Failed to set subscription")]), s')
      /\ spawns (trace s') = (spawns (trace Scenario.start) ++ spawned)%list
      /\ Forall (eq (set_subscription_command "S2")) spawned
      /\ (forall name rg disk user, ~ In (snapshot_create_command name rg disk user) spawned)
      /\ process_groups Scenario.two_subscriptions "123" "20240101000000" "logs/run.txt" "alice"
           [("S2", [("/subscriptions/S2/rg/vm2", "vm2")])]
           [("vm1", "RH_123_vm1_20240101000000")] [] Scenario.start
         = process_groups Scenario.two_subscriptions "123" "20240101000000" "logs/run.txt" "alice"
             [] [("vm1", "RH_123_vm1_20240101000000")] [("vm2", "Failed to set subscription")] s'.
Proof.
  split; [discriminate|].
  apply (subscription_failure_fails_group Scenario.two_subscriptions
           "123" "20240101000000" "logs/run.txt" "alice" "S2"
           [("/subscriptions/S2/rg/vm2", "vm2")] []
           [("vm1", "RH_123_vm1_20240101000000")] [] Scenario.start
           "" "subscription not found" 1%Z);
    [reflexivity | discriminate].
Defined.

Lemma outcome_counts_add_up_witness :
  exists (run : Run) (s' : Sys unit),
    main_run Scenario.two_subscriptions "hosts.txt" "123" 7 None Scenario.start
    = (Ok (inr run), s')
    /\ successful_snapshots run = [("vm1", "RH_123_vm1_20240101000000")]
    /\ failed_snapshots run = [("vm2", "Failed to set subscription")]
    /\ length (successful_snapshots run) + length (failed_snapshots run) = total_vms run.
Proof.
  eexists. eexists. split; [vm_compute; reflexivity|].
  split; [reflexivity|]. split; [reflexivity|].
  eapply (proj1 (outcome_counts_add_up Scenario.two_subscriptions "hosts.txt" "123" 7 None
                   Scenario.start)).
  vm_compute. reflexivity.
Defined.

Lemma excluded_vm_absent_witness :
  first_match "vm2" (PyStr.readlines Scenario.tagged_inventory)
  = Some "/subscriptions/S2/rg-DoNotSnapshot/vm2 vm2"
  /\ PyStr.contains (PyStr.lower "donotsnapshot")
       (PyStr.lower "/subscriptions/S2/rg-DoNotSnapshot/vm2 vm2") = true
  /\ exists vm_list excluded_vms s',
      extract_vm_info Scenario.tagged "hosts.txt" (Some ["donotsnapshot"]) Scenario.start
      = (Ok (Some vm_list, None), s')
      /\ ~ In "/subscriptions/S2/rg-DoNotSnapshot/vm2 vm2" vm_list
      /\ In "vm2" excluded_vms
      /\ In (Printed ("Excluded VMs based on keywords: " ++ PyStr.join ", " excluded_vms)) (trace s')
      /\ forall (chg_number : string) (ttl_duration : Z) (s0 s1 : Sys unit) (run : Run),
          main_run Scenario.tagged "hosts.txt" chg_number ttl_duration (Some ["donotsnapshot"]) s0
          = (Ok (inr run), s1) ->
          total_vms run = length vm_list.
Proof.
  split; [reflexivity|]. split; [reflexivity|].
  apply (excluded_vm_absent Scenario.tagged "hosts.txt" ["donotsnapshot"]
           Scenario.tagged_inventory Scenario.hosts_2 "vm2"
           "/subscriptions/S2/rg-DoNotSnapshot/vm2 vm2" "donotsnapshot" Scenario.start).
  - reflexivity.
  - reflexivity.
  - right. left. reflexivity.
  - reflexivity.
  - reflexivity.
  - left. reflexivity.
  - reflexivity.
Defined.

(** C4 fails on a VM whose name contains "Failed".  The snapshot of
    [FailedoverDB] is created and its record is appended to the registry,
    but the orchestrator looks for the word "Failed" in the result of the
    worker, finds it in the snapshot name, and puts the VM in the failed
    list: the report counts no success and one failure. *)
Theorem failed_in_name_misreported :
  exists s',
    main_run Scenario.failover_vm "hosts.txt" "123" 7 None Scenario.start
    = (Ok (inr (mkRun 1 [] [("FailedoverDB", "RH_123_FailedoverDB_20240101000000")]
                  "logs/snapshot_creation_log_20240101000000.txt"
                  "logs/snapshot_summary_20240101000000.txt")), s')
    /\ appended snap_rid_list_file (trace s')
       = ["/snapshots/1,RH_123_FailedoverDB_20240101000000,2024-01-08,alice" ++ Scenario.LF]
    /\ fst (main Scenario.failover_vm "hosts.txt" "123" 7 None Scenario.start)
       = Ok (Report 1 0 1 "logs/snapshot_creation_log_20240101000000.txt"
               "logs/snapshot_summary_20240101000000.txt" "snap_rid_list.txt").
Proof.
  eexists. split; [vm_compute; reflexivity|]. split; vm_compute; reflexivity.
Qed.


(** * Further properties of the code *)

(** ** Command Executor: attempts, delays and results *)

Section ExecutorAttempts.

Context {World : Type} (P : Platform World).

#[local] Arguments String.append : simpl never.

Lemma sleeps_app (t1 t2 : list event) : sleeps (t1 ++ t2) = (sleeps t1 ++ sleeps t2)%list.
Proof.
  induction t1 as [|e t1 IH]; simpl; [reflexivity|].
  destruct e; simpl; now rewrite ?IH.
Qed.

(** The loop after [k] failed attempts with a standard error that is
    UTF-8: it is at attempt [k], and has spawned and slept [k] times. *)
Lemma az_attempts_after_failures (command : string) (max_retries delay : Z) (k : nat) :
  forall (todo : nat) (attempt : Z) (last : option Completed) (s : Sys World),
    k < todo ->
    (Z.of_nat todo + attempt = max_retries)%Z ->
    (forall j, j < k ->
               returncode (attempt_result P command delay j (world s)) <> 0%Z
               /\ stderr (attempt_result P command delay j (world s)) <> NotUtf8) ->
    exists last' s1,
      az_attempts P command max_retries delay todo attempt last s
      = az_attempts P command max_retries delay (todo - k) (attempt + Z.of_nat k)%Z last' s1
      /\ world s1 = world_before_attempt P command delay k (world s)
      /\ TTL_DURATION s1 = TTL_DURATION s
      /\ spawns (trace s1) = (spawns (trace s) ++ repeat command k)%list
      /\ sleeps (trace s1) = (sleeps (trace s) ++ repeat delay k)%list.
Proof.
  induction k as [|k IH]; intros todo attempt last s Hk Hn Hfail.
  - exists last, s. rewrite Nat.sub_0_r, Z.add_0_r, !app_nil_r. repeat split; reflexivity.
  - destruct todo as [|todo]; [lia|].
    destruct (Hfail 0 (Nat.lt_0_succ _)) as [H0 H0'].
    unfold attempt_result in H0, H0'. cbn [world_before_attempt] in H0, H0'.
    destruct (shell P command (world s)) as [p w1] eqn:Hsh. cbn [fst] in H0, H0'.
    rewrite (az_attempts_failed_step P _ _ _ _ _ _ _ p w1 Hsh H0 H0').
    destruct (Z.ltb_spec attempt (max_retries - 1)) as [_|L]; [|lia].
    match goal with
    | |- context [az_attempts P command max_retries delay todo ?a ?l ?s1] =>
        destruct (IH todo a l s1) as (last' & s2 & Heq & Hw & Httl & Hsp & Hsl)
    end.
    + lia.
    + lia.
    + intros j Hj. specialize (Hfail (S j) (proj1 (Nat.succ_lt_mono _ _) Hj)).
      unfold attempt_result in Hfail |- *. cbn [world_before_attempt] in Hfail.
      rewrite Hsh in Hfail. exact Hfail.
    + exists last', s2. cbn [world TTL_DURATION trace] in *.
      replace (attempt + Z.of_nat (S k))%Z with (attempt + 1 + Z.of_nat k)%Z by lia.
      cbn [Nat.sub world_before_attempt]. rewrite Hsh. cbn [snd].
      split; [exact Heq|]. split; [exact Hw|]. split; [exact Httl|]. split.
      * rewrite Hsp, !spawns_app. cbn [spawns repeat app]. now rewrite <- app_assoc.
      * rewrite Hsl, !sleeps_app. cbn [sleeps repeat app]. now rewrite <- app_assoc.
Qed.

(** X1: when the first [k] attempts exit with a non-zero status and attempt
    [k] (one of the [max_retries] allowed) exits with 0, all with streams
    that are UTF-8 where the code decodes them, the executor runs the command
    [k + 1] times, sleeps [delay] between them, so [k] times, and returns the
    stripped streams of that attempt with status 0. *)
Theorem run_az_command_succeeds_at (command : string) (max_retries delay : Z) (k : nat)
    (s : Sys World) :
  k < Z.to_nat max_retries ->
  (forall j, j < k ->
             returncode (attempt_result P command delay j (world s)) <> 0%Z
             /\ stderr (attempt_result P command delay j (world s)) <> NotUtf8) ->
  returncode (attempt_result P command delay k (world s)) = 0%Z ->
  stdout (attempt_result P command delay k (world s)) <> NotUtf8 ->
  stderr (attempt_result P command delay k (world s)) <> NotUtf8 ->
  exists s',
    run_az_command P command max_retries delay s
    = (Ok (PyStr.strip (decoded (stdout (attempt_result P command delay k (world s)))),
           PyStr.strip (decoded (stderr (attempt_result P command delay k (world s)))),
           0%Z), s')
    /\ spawns (trace s') = (spawns (trace s) ++ repeat command (S k))%list
    /\ sleeps (trace s') = (sleeps (trace s) ++ repeat delay k)%list.
Proof.
  intros Hk Hfail Hok Hout Herr. unfold run_az_command.
  destruct (az_attempts_after_failures command max_retries delay k
              (Z.to_nat max_retries) 0 None s Hk ltac:(lia) Hfail)
    as (last' & s1 & Heq & Hw & Httl & Hsp & Hsl).
  rewrite Heq. unfold attempt_result in *. rewrite <- Hw in *.
  destruct (Z.to_nat max_retries - k) as [|todo] eqn:Htodo; [lia|].
  destruct (shell P command (world s1)) as [p w1] eqn:Hsh. cbn [fst] in *.
  rewrite (az_attempts_success_step P _ _ _ _ _ _ _ p w1 Hsh Hok).
  destruct (stdout p) as [out|]; [|contradiction].
  destruct (stderr p) as [err|]; [|contradiction].
  cbn [decode decoded]. eexists. split; [reflexivity|]. cbn [trace]. split.
  - rewrite spawns_app, Hsp, <- app_assoc. f_equal.
    change (S k) with (1 + k). rewrite Nat.add_comm, repeat_app. reflexivity.
  - rewrite sleeps_app, Hsl. cbn. now rewrite app_nil_r.
Qed.


Lemma az_attempts_exhausted_sleeps (command : string) (max_retries delay : Z) (todo : nat) :
  forall (attempt : Z) (last : option Completed) (s : Sys World),
    (Z.of_nat (S todo) + attempt = max_retries)%Z ->
    (forall k, k <= todo ->
               returncode (attempt_result P command delay k (world s)) <> 0%Z
               /\ stderr (attempt_result P command delay k (world s)) <> NotUtf8) ->
    sleeps (trace (snd (az_attempts P command max_retries delay (S todo) attempt last s)))
    = (sleeps (trace s) ++ repeat delay todo)%list.
Proof.
  induction todo as [|todo IH]; intros attempt last s Hn Hfail;
    destruct (Hfail 0 (Nat.le_0_l _)) as [H0 H0']; unfold attempt_result in H0, H0';
    cbn [world_before_attempt] in H0, H0';
    destruct (shell P command (world s)) as [p w1] eqn:Hsh; cbn [fst snd] in H0, H0';
    rewrite (az_attempts_failed_step P _ _ _ _ _ _ _ p w1 Hsh H0 H0').
  - destruct (Z.ltb_spec attempt (max_retries - 1)) as [L|_]; [lia|].
    cbn [az_attempts]. destruct (stderr p) as [err|]; [|contradiction].
    cbn [decode lift decoded]. erewrite bind_step by reflexivity.
    unfold ret. cbn [snd trace]. rewrite !sleeps_app. cbn.
    now rewrite !app_nil_r.
  - destruct (Z.ltb_spec attempt (max_retries - 1)) as [_|L]; [|lia].
    rewrite IH.
    + cbn [trace]. rewrite !sleeps_app. cbn [sleeps repeat app]. now rewrite <- app_assoc.
    + lia.
    + intros k Hk. specialize (Hfail (S k) (le_n_S _ _ Hk)).
      unfold attempt_result in Hfail |- *. cbn [world_before_attempt] in Hfail.
      rewrite Hsh in Hfail. exact Hfail.
Qed.

(** X2: when all the [max_retries] attempts fail, each with a standard
    error that is UTF-8, the executor sleeps [delay] after each of them but
    the last, so [max_retries - 1] times. *)
Theorem run_az_command_exhausted_sleeps (command : string) (max_retries delay : Z)
    (s : Sys World) :
  (1 <= max_retries)%Z ->
  (forall k, k < Z.to_nat max_retries ->
             returncode (attempt_result P command delay k (world s)) <> 0%Z
             /\ stderr (attempt_result P command delay k (world s)) <> NotUtf8) ->
  sleeps (trace (snd (run_az_command P command max_retries delay s)))
  = (sleeps (trace s) ++ repeat delay (Z.to_nat max_retries - 1))%list.
Proof.
  intros Hpos Hfail. unfold run_az_command.
  destruct (Z.to_nat max_retries) as [|todo] eqn:Hn; [lia|].
  replace (S todo - 1) with todo by lia.
  apply az_attempts_exhausted_sleeps; [lia|].
  intros k Hk. apply Hfail. lia.
Qed.



(** X4: whatever the command does, the executor spawns it at most
    [max_retries] times and spawns nothing else, appends to no file, and
    leaves the global [TTL_DURATION] as it was. *)
Theorem run_az_command_effects (command : string) (max_retries delay : Z) (s : Sys World) :
  exists evs,
    trace (snd (run_az_command P command max_retries delay s)) = (trace s ++ evs)%list
    /\ TTL_DURATION (snd (run_az_command P command max_retries delay s)) = TTL_DURATION s
    /\ Forall (eq command) (spawns evs)
    /\ length (spawns evs) <= Z.to_nat max_retries
    /\ forall path, appended path evs = [].
Proof.
  destruct (az_attempts_bounded P command max_retries delay (Z.to_nat max_retries) 0 None
              (world s) (TTL_DURATION s)) as (r & w' & evs & Hr & Hevs & Hlen).
  exists evs. unfold run_az_command. rewrite (runs_at _ _ _ _ _ Hr). cbn [snd trace TTL_DURATION].
  repeat split; trivial.
  - now apply executor_events_spawns.
  - intros path. now apply (executor_events_append_nothing command).
Qed.

End ExecutorAttempts.

Lemma run_az_command_succeeds_at_witness :
  2 < Z.to_nat 3
  /\ exists s',
      run_az_command (Cases.flaky 2) "az account show" 3 5 Cases.flaky_start
      = (Ok ("ok", "", 0%Z), s')
      /\ spawns (trace s')
         = (spawns (trace Cases.flaky_start) ++ repeat "az account show" 3)%list
      /\ sleeps (trace s') = (sleeps (trace Cases.flaky_start) ++ repeat 5%Z 2)%list.
Proof.
  split; [cbn; lia|].
  apply (run_az_command_succeeds_at (Cases.flaky 2) "az account show" 3 5 2 Cases.flaky_start).
  - cbn. lia.
  - intros j Hj. destruct j as [|[|j]]; [split; discriminate | split; discriminate | lia].
  - reflexivity.
  - discriminate.
  - discriminate.
Defined.


Lemma run_az_command_exhausted_sleeps_witness :
  (1 <= 3)%Z
  /\ sleeps (trace (snd (run_az_command Scenario.always_failing "az account show" 3 5
                           Scenario.start)))
     = (sleeps (trace Scenario.start) ++ repeat 5%Z (Z.to_nat 3 - 1))%list.
Proof.
  split; [lia|].
  apply (run_az_command_exhausted_sleeps Scenario.always_failing "az account show" 3 5
           Scenario.start).
  - lia.
  - intros k _. split; discriminate.
Defined.


(** ** Subscription Grouper: what a grouping holds *)

Lemma group_loop_well_formed (vm_list : list string) :
  forall g, existsb malformed vm_list = false -> exists g', group_loop vm_list g = Ok g'.
Proof.
  induction vm_list as [|line rest IH]; intros g H; cbn [group_loop existsb] in *.
  - now exists g.
  - apply orb_false_iff in H as [Hline Hrest]. unfold malformed in Hline.
    destruct (PyStr.split_ws line) as [|rid [|name [|x xs]]]; try discriminate.
    destruct (nth_error (PyStr.split_on "/" rid) 2); [|discriminate].
    now apply IH.
Qed.

(** X5: a list without malformed record is grouped without any exception,
    and the groups hold together as many VMs as the list has lines. *)
Theorem group_vms_by_subscription_total (vm_list : list string) :
  existsb malformed vm_list = false ->
  exists g,
    group_vms_by_subscription vm_list = Ok g /\ group_size g = length vm_list.
Proof.
  intros H. destruct (group_loop_well_formed vm_list [] H) as (g & Hg).
  exists g. split; [exact Hg|]. now apply group_vms_by_subscription_size.
Qed.

Lemma group_vms_by_subscription_total_witness :
  existsb malformed ["/subscriptions/S1/rg/a vm1"; "/subscriptions/S2/rg/b vm2"] = false
  /\ exists g,
      group_vms_by_subscription ["/subscriptions/S1/rg/a vm1"; "/subscriptions/S2/rg/b vm2"]
      = Ok g
      /\ group_size g = length ["/subscriptions/S1/rg/a vm1"; "/subscriptions/S2/rg/b vm2"].
Proof.
  split; [reflexivity|].
  apply (group_vms_by_subscription_total
           ["/subscriptions/S1/rg/a vm1"; "/subscriptions/S2/rg/b vm2"]).
  reflexivity.
Defined.

Lemma assoc_dict_append (key k : string) (v : string * string) (g : grouping) :
  assoc k (dict_append key v g)
  = if String.eqb key k
    then Some (match assoc key g with Some vs => (vs ++ [v])%list | None => [v] end)
    else assoc k g.
Proof.
  induction g as [|[k0 vs] g IH]; cbn [dict_append assoc].
  - reflexivity.
  - destruct (String.eqb_spec k0 key) as [->|Hk0]; cbn [assoc].
    + destruct (String.eqb_spec key k) as [->|Hk]; reflexivity.
    + rewrite IH. destruct (String.eqb_spec key k) as [->|Hk].
      * destruct (String.eqb_spec k0 k) as [->|_]; [contradiction | reflexivity].
      * reflexivity.
Qed.

Lemma group_loop_lookup (vm_list : list string) (subscription_id : string) :
  forall g0 g,
    group_loop vm_list g0 = Ok g ->
    assoc subscription_id g
    = match assoc subscription_id g0 with
      | Some vs => Some (vs ++ records_of subscription_id vm_list)%list
      | None =>
          match records_of subscription_id vm_list with
          | [] => None
          | r :: rs => Some (r :: rs)
          end
      end.
Proof.
  induction vm_list as [|line rest IH]; intros g0 g H; cbn [group_loop] in H.
  - injection H as <-. cbn. destruct (assoc subscription_id g0); [now rewrite app_nil_r|reflexivity].
  - unfold records_of. cbn [flat_map]. fold (records_of subscription_id rest).
    unfold parse_record.
    destruct (PyStr.split_ws line) as [|rid [|name [|x xs]]]; try discriminate.
    destruct (nth_error (PyStr.split_on "/" rid) 2) as [sub|]; [|discriminate].
    rewrite (IH _ _ H), assoc_dict_append.
    destruct (String.eqb_spec sub subscription_id) as [->|Hne]; cbn [app].
    + destruct (assoc subscription_id g0) as [vs|].
      * now rewrite <- app_assoc.
      * reflexivity.
    + reflexivity.
Qed.

(** X6: in the grouping the grouper returns, a subscription is a key
    exactly when some record of the list belongs to it, and its group is
    the list of those records in the order of the input. *)
Theorem group_vms_by_subscription_lookup (vm_list : list string) (g : grouping)
    (subscription_id : string) :
  group_vms_by_subscription vm_list = Ok g ->
  assoc subscription_id g
  = match records_of subscription_id vm_list with
    | [] => None
    | r :: rs => Some (r :: rs)
    end.
Proof. intros H. now rewrite (group_loop_lookup _ _ _ _ H). Qed.

Lemma group_vms_by_subscription_lookup_witness :
  group_vms_by_subscription
    ["/subscriptions/S1/rg/a vm1"; "/subscriptions/S2/rg/b vm2"; "/subscriptions/S1/rg/c vm3"]
  = Ok [("S1", [("/subscriptions/S1/rg/a", "vm1"); ("/subscriptions/S1/rg/c", "vm3")]);
        ("S2", [("/subscriptions/S2/rg/b", "vm2")])]
  /\ assoc "S1"
       [("S1", [("/subscriptions/S1/rg/a", "vm1"); ("/subscriptions/S1/rg/c", "vm3")]);
        ("S2", [("/subscriptions/S2/rg/b", "vm2")])]
     = match records_of "S1"
               ["/subscriptions/S1/rg/a vm1"; "/subscriptions/S2/rg/b vm2";
                "/subscriptions/S1/rg/c vm3"] with
       | [] => None
       | r :: rs => Some (r :: rs)
       end.
Proof.
  split; [reflexivity|].
  apply (group_vms_by_subscription_lookup
           ["/subscriptions/S1/rg/a vm1"; "/subscriptions/S2/rg/b vm2";
            "/subscriptions/S1/rg/c vm3"]).
  reflexivity.
Defined.

Lemma dict_append_keys (key : string) (v : string * string) (g : grouping) :
  map fst (dict_append key v g)
  = if existsb (String.eqb key) (map fst g) then map fst g else (map fst g ++ [key])%list.
Proof.
  induction g as [|[k0 vs] g IH]; cbn [dict_append map existsb fst app].
  - reflexivity.
  - rewrite (String.eqb_sym key k0).
    destruct (String.eqb k0 key); cbn [orb map fst].
    + reflexivity.
    + rewrite IH. now destruct (existsb (String.eqb key) (map fst g)).
Qed.

Lemma dict_append_invariant (key : string) (v : string * string) (g : grouping) :
  NoDup (map fst g) /\ Forall (fun kv => snd kv <> []) g ->
  NoDup (map fst (dict_append key v g))
  /\ Forall (fun kv => snd kv <> []) (dict_append key v g).
Proof.
  intros [Hnd Hne]. split.
  - rewrite dict_append_keys.
    destruct (existsb (String.eqb key) (map fst g)) eqn:Hex; [exact Hnd|].
    apply NoDup_app; [exact Hnd | repeat constructor; intros [] |].
    intros k Hin [Hk|[]]. subst k.
    assert (existsb (String.eqb key) (map fst g) = true); [|congruence].
    apply existsb_exists. exists key. split; [exact Hin | apply String.eqb_refl].
  - induction Hne as [|[k0 vs] g Hvs Hne IH]; cbn [dict_append].
    + repeat constructor. discriminate.
    + inversion Hnd; subst. destruct (String.eqb k0 key).
      * constructor; [|exact Hne]. cbn. now destruct vs.
      * constructor; [exact Hvs|]. now apply IH.
Qed.

Lemma group_loop_invariant (vm_list : list string) :
  forall g0 g,
    group_loop vm_list g0 = Ok g ->
    NoDup (map fst g0) /\ Forall (fun kv => snd kv <> []) g0 ->
    NoDup (map fst g) /\ Forall (fun kv => snd kv <> []) g.
Proof.
  induction vm_list as [|line rest IH]; intros g0 g H Hinv; cbn [group_loop] in H.
  - now injection H as <-.
  - destruct (PyStr.split_ws line) as [|rid [|name [|x xs]]]; try discriminate.
    destruct (nth_error (PyStr.split_on "/" rid) 2) as [sub|]; [|discriminate].
    apply (IH _ _ H). now apply dict_append_invariant.
Qed.

(** X7: the grouping the grouper returns has each subscription once as a
    key, and no group is empty. *)
Theorem group_vms_by_subscription_keys (vm_list : list string) (g : grouping) :
  group_vms_by_subscription vm_list = Ok g ->
  NoDup (map fst g) /\ Forall (fun kv => snd kv <> []) g.
Proof.
  intros H. apply (group_loop_invariant _ _ _ H). split; constructor.
Qed.

Lemma group_vms_by_subscription_keys_witness :
  NoDup (map fst [("S1", [("/subscriptions/S1/rg/a", "vm1"); ("/subscriptions/S1/rg/c", "vm3")]);
                  ("S2", [("/subscriptions/S2/rg/b", "vm2")])])
  /\ Forall (fun kv : string * list (string * string) => snd kv <> [])
       [("S1", [("/subscriptions/S1/rg/a", "vm1"); ("/subscriptions/S1/rg/c", "vm3")]);
        ("S2", [("/subscriptions/S2/rg/b", "vm2")])].
Proof.
  apply (group_vms_by_subscription_keys
           ["/subscriptions/S1/rg/a vm1"; "/subscriptions/S2/rg/b vm2";
            "/subscriptions/S1/rg/c vm3"]).
  reflexivity.
Defined.

(** ** Inventory Resolver: matching and accounting *)

Section ResolverAccounting.

Context {World : Type} (P : Platform World).

#[local] Arguments String.append : simpl never.

Lemma first_match_app (hostname : string) (before after : list string) :
  (forall l, In l before -> PyStr.contains hostname l = false) ->
  first_match hostname (before ++ after) = first_match hostname after.
Proof.
  induction before as [|l before IH]; intros H; cbn [app first_match].
  - reflexivity.
  - rewrite (H l (or_introl eq_refl)). apply IH. intros l' Hl'. apply H. now right.
Qed.

(** X8: the inventory lookup returns the first line that contains the host
    name, stripped of surrounding white space, whatever lines follow it; it
    returns nothing when no line contains the host name. *)
Theorem get_vm_info_first_match (hostname path inventory : string) (s : Sys World) :
  files P path = Text inventory ->
  (forall (before after : list string) (line : string),
      PyStr.readlines inventory = (before ++ line :: after)%list ->
      (forall l, In l before -> PyStr.contains hostname l = false) ->
      PyStr.contains hostname line = true ->
      get_vm_info P hostname path s = (Ok (Some (PyStr.strip line)), s))
  /\ ((forall l, In l (PyStr.readlines inventory) -> PyStr.contains hostname l = false) ->
      get_vm_info P hostname path s = (Ok None, s)).
Proof.
  intros Hfile. unfold get_vm_info, read_text. rewrite Hfile. split.
  - intros before after line Hlines Hbefore Hline.
    unfold bind, ret. rewrite Hlines, (first_match_app _ _ _ Hbefore).
    cbn [first_match]. now rewrite Hline.
  - intros Hnone. unfold bind, ret.
    rewrite <- (app_nil_r (PyStr.readlines inventory)), (first_match_app _ _ _ Hnone).
    reflexivity.
Qed.

Lemma partition_three_count (exclude_keywords : option (list string))
    (lines hostnames : list string) :
  length (resolved exclude_keywords lines hostnames)
  + length (filter (is_excluded exclude_keywords lines) hostnames)
  + length (filter (not_found lines) hostnames)
  = length hostnames.
Proof.
  induction hostnames as [|h rest IH]; [reflexivity|].
  unfold resolved in *. cbn [flat_map filter]. rewrite length_app.
  unfold resolved_line at 1, is_excluded at 1, not_found at 1.
  destruct (first_match h lines) as [info|]; cbn [length].
  - destruct (PyStr.truthy info), (keyword_hit exclude_keywords info);
      cbn [andb negb length]; lia.
  - lia.
Qed.

Lemma resolved_kept (exclude_keywords : option (list string)) (lines hostnames : list string) :
  Forall (fun line => PyStr.truthy line = true /\ keyword_hit exclude_keywords line = false)
    (resolved exclude_keywords lines hostnames).
Proof.
  induction hostnames as [|h rest IH]; [constructor|].
  unfold resolved in *. cbn [flat_map]. apply Forall_app. split; [|exact IH].
  unfold resolved_line. destruct (first_match h lines) as [info|]; [|constructor].
  destruct (PyStr.truthy info) eqn:Ht, (keyword_hit exclude_keywords info) eqn:Hk;
    cbn [andb negb]; repeat constructor; assumption.
Qed.

(** X9: the resolution loop accounts for every host name exactly once: it
    is resolved to a line, or excluded, or warned about as not found.  The
    resolved lines are not empty and hold no exclusion keyword, and the
    excluded and the unknown host names come from the host list. *)
Theorem resolve_loop_accounts (exclude_keywords : option (list string))
    (inventory : string) (hostnames vm_list excluded_vms : list string) (s s' : Sys World) :
  files P inventory_file = Text inventory ->
  resolve_loop P exclude_keywords hostnames [] [] s = (Ok (vm_list, excluded_vms), s') ->
  exists unknown,
    trace s' = (trace s ++ map warning unknown)%list
    /\ length vm_list + length excluded_vms + length unknown = length hostnames
    /\ Forall (fun line => PyStr.truthy line = true
                           /\ keyword_hit exclude_keywords line = false) vm_list
    /\ incl excluded_vms hostnames
    /\ incl unknown hostnames.
Proof.
  intros Hinv H. rewrite (resolve_loop_spec P _ _ Hinv) in H. cbn [app] in H.
  injection H as <- <- <-.
  exists (filter (not_found (PyStr.readlines inventory)) hostnames).
  split; [reflexivity|]. split; [apply partition_three_count|].
  split; [apply resolved_kept|].
  split; intros h Hh; apply filter_In in Hh; tauto.
Qed.

Lemma resolve_loop_effects (exclude_keywords : option (list string)) (hostnames : list string) :
  forall (vm_list excluded_vms : list string) (s : Sys World),
  exists evs,
    snd (resolve_loop P exclude_keywords hostnames vm_list excluded_vms s)
    = mkSys (world s) (TTL_DURATION s) (trace s ++ evs)%list
    /\ spawns evs = [] /\ forall path, appended path evs = [].
Proof.
  induction hostnames as [|h rest IH]; intros vm_list excluded_vms s.
  - exists []. cbn. rewrite app_nil_r. now destruct s.
  - cbn [resolve_loop]. unfold bind at 1. unfold get_vm_info, read_text.
    destruct (files P inventory_file) as [| |inventory].
    + exists []. cbn. rewrite app_nil_r. now destruct s.
    + exists []. cbn. rewrite app_nil_r. now destruct s.
    + unfold bind at 1. unfold ret at 1. unfold ret at 1.
      assert (Hwarn : forall vl ex,
        exists evs,
          snd ((print ("Warning: Information not found for hostname '" ++ h ++ "'") ;;
                resolve_loop P exclude_keywords rest vl ex) s)
          = mkSys (world s) (TTL_DURATION s) (trace s ++ evs)%list
          /\ spawns evs = [] /\ forall path, appended path evs = []).
      { intros vl ex. unfold bind, print, emit.
        match goal with
        | |- context [resolve_loop P exclude_keywords rest vl ex ?s1] =>
            destruct (IH vl ex s1) as (evs & Heq & Hsp & Hap);
            destruct (resolve_loop P exclude_keywords rest vl ex s1) as [[r|e] s2]
        end; cbn [snd] in Heq |- *; subst s2; cbn [world TTL_DURATION trace];
          eexists; (split; [rewrite <- app_assoc; reflexivity|]);
          cbn [app spawns appended]; auto. }
      destruct (first_match h (PyStr.readlines inventory)) as [info|]; [|apply Hwarn].
      destruct (PyStr.truthy info); [|apply Hwarn].
      destruct (keyword_hit exclude_keywords info); apply IH.
Qed.

Lemma extract_vm_info_events (host_file : string) (exclude_keywords : option (list string))
    (s : Sys World) :
  exists evs,
    snd (extract_vm_info P host_file exclude_keywords s)
    = mkSys (world s) (TTL_DURATION s) (trace s ++ evs)%list
    /\ spawns evs = [] /\ forall path, appended path evs = [].
Proof.
  assert (Hsame : forall (r : result (option (list string) * option string)),
             exists evs,
               snd (r, s) = mkSys (world s) (TTL_DURATION s) (trace s ++ evs)%list
               /\ spawns evs = [] /\ forall path, appended path evs = []).
  { intros r. exists []. cbn. rewrite app_nil_r. now destruct s. }
  unfold extract_vm_info.
  destruct (negb (path_exists P inventory_file)); [apply Hsame|].
  destruct (negb (path_exists P host_file)); [apply Hsame|].
  unfold read_text. destruct (files P host_file) as [| |hosts]; try apply Hsame.
  unfold bind at 1. unfold ret at 1. unfold bind at 1.
  destruct (resolve_loop_effects exclude_keywords (PyStr.splitlines hosts) [] [] s)
    as (evs & Heq & Hsp & Hap).
  destruct (resolve_loop P exclude_keywords (PyStr.splitlines hosts) [] [] s) as [[[vl ex]|e] s1];
    cbn [snd] in Heq; subst s1.
  - destruct ex as [|x xs]; unfold bind, ret, print, emit; cbn [snd world TTL_DURATION trace].
    + exists evs. auto.
    + eexists. split; [rewrite <- app_assoc; reflexivity|].
      rewrite spawns_app, Hsp. split; [reflexivity|].
      intros path. now rewrite appended_app, Hap.
  - exists evs. auto.
Qed.

(** X10: the resolver only reads and prints.  Whatever it returns or
    raises, it leaves the world and the global [TTL_DURATION] as they were,
    spawns no command and appends to no file. *)
Theorem extract_vm_info_effects (host_file : string) (exclude_keywords : option (list string))
    (s : Sys World) :
  let s' := snd (extract_vm_info P host_file exclude_keywords s) in
  world s' = world s
  /\ TTL_DURATION s' = TTL_DURATION s
  /\ spawns (trace s') = spawns (trace s)
  /\ forall path, appended path (trace s') = appended path (trace s).
Proof.
  destruct (extract_vm_info_events host_file exclude_keywords s) as (evs & Heq & Hsp & Hap).
  cbv zeta. rewrite Heq. cbn [world TTL_DURATION trace].
  rewrite spawns_app, Hsp, app_nil_r. repeat split; trivial.
  intros path. now rewrite appended_app, Hap, app_nil_r.
Qed.

End ResolverAccounting.

Lemma get_vm_info_first_match_witness :
  get_vm_info Scenario.all_well "vm" inventory_file Scenario.start
  = (Ok (Some "/subscriptions/S1/rg/vm1 vm1"), Scenario.start)
  /\ get_vm_info Scenario.all_well "vm9" inventory_file Scenario.start
     = (Ok None, Scenario.start).
Proof.
  split.
  - apply (proj1 (get_vm_info_first_match Scenario.all_well "vm" inventory_file
                    Scenario.inventory_2 Scenario.start eq_refl)
             [] ["/subscriptions/S2/rg/vm2 vm2" ++ Scenario.LF]
             ("/subscriptions/S1/rg/vm1 vm1" ++ Scenario.LF));
      [reflexivity | intros l [] | reflexivity].
  - apply (proj2 (get_vm_info_first_match Scenario.all_well "vm9" inventory_file
                    Scenario.inventory_2 Scenario.start eq_refl)).
    intros l [<-|[<-|[]]]; reflexivity.
Defined.

Lemma resolve_loop_accounts_witness :
  exists vm_list excluded_vms s',
    resolve_loop Scenario.tagged (Some ["donotsnapshot"]) ["vm1"; "vm9"; "vm2"] [] []
      Scenario.start
    = (Ok (vm_list, excluded_vms), s')
    /\ exists unknown,
        trace s' = (trace Scenario.start ++ map warning unknown)%list
        /\ length vm_list + length excluded_vms + length unknown = length ["vm1"; "vm9"; "vm2"]
        /\ Forall (fun line => PyStr.truthy line = true
                               /\ keyword_hit (Some ["donotsnapshot"]) line = false) vm_list
        /\ incl excluded_vms ["vm1"; "vm9"; "vm2"]
        /\ incl unknown ["vm1"; "vm9"; "vm2"].
Proof.
  eexists. eexists. eexists. split; [vm_compute; reflexivity|].
  eapply (resolve_loop_accounts Scenario.tagged (Some ["donotsnapshot"])
            Scenario.tagged_inventory ["vm1"; "vm9"; "vm2"]).
  - reflexivity.
  - vm_compute. reflexivity.
Defined.

(** ** Snapshot Worker: the outcomes of one VM *)

Section WorkerOutcomes.

Context {World : Type} (P : Platform World).

#[local] Arguments String.append : simpl never.

Variables (resource_id vm_name : string) (resource_group disk_id : json).
Variables (chg_number timestamp log_file user_id : string).

Let snapshot_name : string := snapshot_name_of chg_number vm_name timestamp.

Let command : string :=
  snapshot_create_command snapshot_name (py_str P resource_group) (py_str P disk_id) user_id.

Let worker : M World (string * string) :=
  process_vm P resource_id vm_name resource_group disk_id chg_number timestamp log_file user_id.

(** The worker up to the answer of the executor. *)
Ltac to_answer s Hrun w' evs Hruns Hevs :=
  let r := fresh "r" in
  destruct (run_az_command_runs P command 3 5 (world s) (TTL_DURATION s))
    as (r & w' & evs & Hruns & Hevs);
  unfold run_az in Hrun; rewrite (runs_at _ _ _ _ _ Hruns) in Hrun; cbn [fst] in Hrun; subst r;
  unfold worker, process_vm, run_az; do 6 step; cbn [world TTL_DURATION trace];
  erewrite bind_step by (apply Hruns).

Ltac registry_unchanged Hlog Hevs :=
  cbn [trace world TTL_DURATION]; unfold log_entry;
  rewrite ?appended_other by assumption;
  rewrite appended_app, (executor_events_append_nothing _ _ _ Hevs), app_nil_r;
  rewrite ?appended_other by assumption.

(** X11: when the snapshot-create command fails after the retries of the
    executor, the worker returns the VM with the reason
    "Failed to create snapshot", appends nothing to the snapshot registry,
    and the orchestrator puts the VM in the failed list. *)
Theorem create_failure_reported (s : Sys World) (out err : string) (rc : Z) :
  log_file <> snap_rid_list_file ->
  fst (run_az P command s) = Ok (out, err, rc) ->
  rc <> 0%Z ->
  exists s',
    worker s = (Ok (vm_name, "Failed to create snapshot"), s')
    /\ appended snap_rid_list_file (trace s') = appended snap_rid_list_file (trace s)
    /\ forall succ failed : outcomes,
        collect [(vm_name, "Failed to create snapshot")] succ failed
        = (succ, (failed ++ [(vm_name, "Failed to create snapshot")])%list).
Proof.
  intros Hlog Hrun Hrc. to_answer s Hrun w' evs Hruns Hevs.
  cbn beta iota. destruct (Z.eqb_spec rc 0) as [E|_]; [contradiction|]. cbn [negb].
  do 2 step. eexists. split; [reflexivity|]. split.
  - registry_unchanged Hlog Hevs. reflexivity.
  - reflexivity.
Qed.

(** X12: when the snapshot-create command succeeds and the decoded answer
    has a truthy [id], the worker returns the snapshot name and appends
    exactly one record to the registry: the identifier, the snapshot name,
    the day [TTL_DURATION] days after the start of the worker, and the user.
    The orchestrator counts the VM as succeeded when the snapshot name does
    not contain "Failed". *)
Theorem snapshot_registered (s : Sys World) (out err : string)
    (fields : list (string * json)) (id : json) :
  log_file <> snap_rid_list_file ->
  fst (run_az P command s) = Ok (out, err, 0%Z) ->
  json_loads P out = Some (JObject fields) ->
  assoc "id" fields = Some id ->
  json_truthy id = true ->
  exists s',
    worker s = (Ok (vm_name, snapshot_name), s')
    /\ appended snap_rid_list_file (trace s')
       = (appended snap_rid_list_file (trace s)
          ++ [registry_line (py_str P id) snapshot_name
                (date_after P (TTL_DURATION s) (world s)) user_id])%list
    /\ (PyStr.contains "Failed" snapshot_name = false ->
        forall succ failed : outcomes,
          collect [(vm_name, snapshot_name)] succ failed
          = ((succ ++ [(vm_name, snapshot_name)])%list, failed)).
Proof.
  intros Hlog Hrun Hjson Hid Htruthy. to_answer s Hrun w' evs Hruns Hevs.
  cbn [Z.eqb negb]. step. unfold loads. rewrite Hjson. do 3 step.
  cbn [dict_get lift]. step. rewrite Hid, Htruthy. unfold write_snapshot_rid. do 2 step.
  eexists. split; [reflexivity|]. split.
  - cbn [trace world TTL_DURATION]. unfold log_entry.
    rewrite !appended_other by assumption.
    rewrite appended_app. cbn [appended]. rewrite String.eqb_refl.
    rewrite !appended_other by assumption.
    rewrite appended_app, (executor_events_append_nothing _ _ _ Hevs), app_nil_r.
    now rewrite !appended_other by assumption.
  - intros Hname succ failed. cbn [collect]. now rewrite Hname.
Qed.

(** X13: an [id] that is present but falsy (null, an empty text, zero, an
    empty list or object) counts as missing: the VM is reported with
    "Failed to extract snapshot ID" and nothing is appended to the
    registry. *)
Theorem falsy_id_reported_failed (s : Sys World) (out err : string)
    (fields : list (string * json)) (id : json) :
  log_file <> snap_rid_list_file ->
  fst (run_az P command s) = Ok (out, err, 0%Z) ->
  json_loads P out = Some (JObject fields) ->
  assoc "id" fields = Some id ->
  json_truthy id = false ->
  exists s',
    worker s = (Ok (vm_name, "Failed to extract snapshot ID"), s')
    /\ appended snap_rid_list_file (trace s') = appended snap_rid_list_file (trace s).
Proof.
  intros Hlog Hrun Hjson Hid Hfalsy. to_answer s Hrun w' evs Hruns Hevs.
  cbn [Z.eqb negb]. step. unfold loads. rewrite Hjson. do 3 step.
  cbn [dict_get lift]. step. rewrite Hid, Hfalsy. step.
  eexists. split; [reflexivity|].
  registry_unchanged Hlog Hevs. reflexivity.
Qed.

(** X14: when the snapshot-create command succeeds but its output is not
    JSON, the worker raises [JSONDecodeError]; when the output decodes to
    something that is not an object, it raises [AttributeError].  In both
    cases the snapshot exists and nothing has been appended to the
    registry. *)
Theorem undecodable_answer_raises (s : Sys World) (out err : string) :
  log_file <> snap_rid_list_file ->
  fst (run_az P command s) = Ok (out, err, 0%Z) ->
  (json_loads P out = None ->
   exists s',
     worker s = (Raise JSONDecodeError, s')
     /\ appended snap_rid_list_file (trace s') = appended snap_rid_list_file (trace s))
  /\ (forall v,
        json_loads P out = Some v ->
        (forall fields, v <> JObject fields) ->
        exists s',
          worker s = (Raise AttributeError, s')
          /\ appended snap_rid_list_file (trace s') = appended snap_rid_list_file (trace s)).
Proof.
  intros Hlog Hrun. split.
  - intros Hjson. to_answer s Hrun w' evs Hruns Hevs.
    cbn [Z.eqb negb]. step. unfold loads. rewrite Hjson.
    erewrite bind_raise by reflexivity.
    eexists. split; [reflexivity|]. registry_unchanged Hlog Hevs. reflexivity.
  - intros v Hjson Hobj. to_answer s Hrun w' evs Hruns Hevs.
    cbn [Z.eqb negb]. step. unfold loads. rewrite Hjson. do 3 step.
    assert (Hget : dict_get v "id" = Raise AttributeError).
    { destruct v; try reflexivity. now destruct (Hobj fields). }
    rewrite Hget. cbn [lift]. erewrite bind_raise by reflexivity.
    eexists. split; [reflexivity|]. registry_unchanged Hlog Hevs. reflexivity.
Qed.

End WorkerOutcomes.

Lemma create_failure_reported_witness :
  "logs/run.txt" <> snap_rid_list_file
  /\ exists s',
      process_vm Cases.create_fails "/subscriptions/S1/rg/vm1" "vm1"
        (JString "rg") (JString "disk") "123" "20240101000000" "logs/run.txt" "alice"
        Scenario.start
      = (Ok ("vm1", "Failed to create snapshot"), s')
      /\ appended snap_rid_list_file (trace s')
         = appended snap_rid_list_file (trace Scenario.start)
      /\ forall succ failed : outcomes,
          collect [("vm1", "Failed to create snapshot")] succ failed
          = (succ, (failed ++ [("vm1", "Failed to create snapshot")])%list).
Proof.
  split; [discriminate|].
  apply (create_failure_reported Cases.create_fails "/subscriptions/S1/rg/vm1" "vm1"
           (JString "rg") (JString "disk") "123" "20240101000000" "logs/run.txt" "alice"
           Scenario.start "" "disk is locked" 1%Z);
    [discriminate | reflexivity | discriminate].
Defined.

Lemma snapshot_registered_witness :
  PyStr.contains "Failed" (snapshot_name_of "123" "vm1" "20240101000000") = false
  /\ exists s',
      process_vm Scenario.all_well "/subscriptions/S1/rg/vm1" "vm1"
        (JString "rg") (JString "disk") "123" "20240101000000" "logs/run.txt" "alice"
        Scenario.start
      = (Ok ("vm1", snapshot_name_of "123" "vm1" "20240101000000"), s')
      /\ appended snap_rid_list_file (trace s')
         = (appended snap_rid_list_file (trace Scenario.start)
            ++ [registry_line "/snapshots/1" (snapshot_name_of "123" "vm1" "20240101000000")
                  "2024-01-08" "alice"])%list
      /\ (PyStr.contains "Failed" (snapshot_name_of "123" "vm1" "20240101000000") = false ->
          forall succ failed : outcomes,
            collect [("vm1", snapshot_name_of "123" "vm1" "20240101000000")] succ failed
            = ((succ ++ [("vm1", snapshot_name_of "123" "vm1" "20240101000000")])%list,
               failed)).
Proof.
  split; [reflexivity|].
  apply (snapshot_registered Scenario.all_well "/subscriptions/S1/rg/vm1" "vm1"
           (JString "rg") (JString "disk") "123" "20240101000000" "logs/run.txt" "alice"
           Scenario.start "snapshot" ""
           [("name", JString "snap"); ("id", JString "/snapshots/1")] (JString "/snapshots/1"));
    [discriminate | reflexivity | reflexivity | reflexivity | reflexivity].
Defined.

Lemma falsy_id_reported_failed_witness :
  json_truthy JNull = false
  /\ exists s',
      process_vm Cases.null_id "/subscriptions/S1/rg/vm1" "vm1"
        (JString "rg") (JString "disk") "123" "20240101000000" "logs/run.txt" "alice"
        Scenario.start
      = (Ok ("vm1", "Failed to extract snapshot ID"), s')
      /\ appended snap_rid_list_file (trace s')
         = appended snap_rid_list_file (trace Scenario.start).
Proof.
  split; [reflexivity|].
  apply (falsy_id_reported_failed Cases.null_id "/subscriptions/S1/rg/vm1" "vm1"
           (JString "rg") (JString "disk") "123" "20240101000000" "logs/run.txt" "alice"
           Scenario.start "snapshot" "" [("id", JNull)] JNull);
    [discriminate | reflexivity | reflexivity | reflexivity | reflexivity].
Defined.

Lemma undecodable_answer_raises_witness :
  (exists s',
      process_vm Cases.not_json "/subscriptions/S1/rg/vm1" "vm1"
        (JString "rg") (JString "disk") "123" "20240101000000" "logs/run.txt" "alice"
        Scenario.start
      = (Raise JSONDecodeError, s')
      /\ appended snap_rid_list_file (trace s')
         = appended snap_rid_list_file (trace Scenario.start))
  /\ (exists s',
        process_vm Cases.list_answer "/subscriptions/S1/rg/vm1" "vm1"
          (JString "rg") (JString "disk") "123" "20240101000000" "logs/run.txt" "alice"
          Scenario.start
        = (Raise AttributeError, s')
        /\ appended snap_rid_list_file (trace s')
           = appended snap_rid_list_file (trace Scenario.start)).
Proof.
  split.
  - apply (proj1 (undecodable_answer_raises Cases.not_json "/subscriptions/S1/rg/vm1" "vm1"
                    (JString "rg") (JString "disk") "123" "20240101000000" "logs/run.txt"
                    "alice" Scenario.start "snapshot" ""
                    ltac:(discriminate) eq_refl)).
    reflexivity.
  - apply (proj2 (undecodable_answer_raises Cases.list_answer "/subscriptions/S1/rg/vm1" "vm1"
                    (JString "rg") (JString "disk") "123" "20240101000000" "logs/run.txt"
                    "alice" Scenario.start "snapshot" ""
                    ltac:(discriminate) eq_refl) (JArray [])).
    + reflexivity.
    + discriminate.
Defined.

(** ** Orchestrator: classification, per-VM failures and fatal errors *)

Section OrchestratorOutcomes.

Context {World : Type} (P : Platform World).

#[local] Arguments String.append : simpl never.

(** X15: the classification loop keeps the order of the results and sorts
    them by one test: a result whose text contains "Failed" goes to the
    failed list, every other one to the succeeded list. *)
Theorem collect_partition (results succ failed : outcomes) :
  collect results succ failed
  = ((succ ++ filter (fun r => negb (PyStr.contains "Failed" (snd r))) results)%list,
     (failed ++ filter (fun r => PyStr.contains "Failed" (snd r)) results)%list).
Proof.
  revert succ failed. induction results as [|[vm_name result] rest IH]; intros succ failed.
  - cbn. now rewrite !app_nil_r.
  - cbn [collect filter snd].
    destruct (PyStr.contains "Failed" result); cbn [negb]; rewrite IH, <- app_assoc; reflexivity.
Qed.

(** X16: when the details of a VM cannot be fetched, the VM is added to the
    failed list with the reason "Failed to get VM details", no task is
    created for it, and the loop goes on with the other VMs of the group.
    When no task of the group is pending, so that [main] runs alone, only the
    details command has been spawned by then. *)
Theorem detail_failure_fails_vm (chg_number timestamp log_file user_id : string)
    (resource_id vm_name : string) (rest : list (string * string))
    (tasks : list (M World (string * string))) (failed : outcomes) (s : Sys World)
    (out err : string) (rc : Z) :
  fst (run_az P (vm_show_command resource_id) s) = Ok (out, err, rc) ->
  rc <> 0%Z ->
  exists s' evs,
    fetch_details P chg_number timestamp log_file user_id ((resource_id, vm_name) :: rest)
      tasks failed s
    = fetch_details P chg_number timestamp log_file user_id rest tasks
        (failed ++ [(vm_name, "Failed to get VM details")])%list s'
    /\ (tasks = [] ->
        trace s' = (trace s ++ evs)%list
        /\ Forall (eq (vm_show_command resource_id)) (spawns evs)).
Proof.
  intros Hrun Hrc.
  destruct (run_az_command_runs P (vm_show_command resource_id) 3 5
              (world s) (TTL_DURATION s)) as (r & w' & evs & Hruns & Hevs).
  unfold run_az in Hrun. rewrite (runs_at _ _ _ _ _ Hruns) in Hrun. cbn [fst] in Hrun. subst r.
  cbn [fetch_details]. unfold run_az.
  erewrite bind_step by (apply (runs_at _ _ _ _ _ Hruns)).
  cbn beta iota. destruct (Z.eqb_spec rc 0) as [E|_]; [contradiction|]. cbn [negb].
  do 2 step. cbn [world TTL_DURATION trace].
  eexists. eexists. split; [reflexivity|]. intros _. cbn [trace]. split.
  - rewrite <- !app_assoc. reflexivity.
  - rewrite !spawns_app. cbn. rewrite app_nil_r. now apply executor_events_spawns.
Qed.

Lemma main_of_error (host_file chg_number : string) (ttl_duration : Z)
    (exclude_keywords : option (list string)) (s s' : Sys World) (error : string) :
  main_run P host_file chg_number ttl_duration exclude_keywords s = (Ok (inl error), s') ->
  main P host_file chg_number ttl_duration exclude_keywords s = (Ok (ErrorResponse error), s').
Proof. intros H. unfold main. now rewrite (bind_step _ _ _ _ _ H). Qed.

Lemma extract_vm_info_no_inventory (host_file : string)
    (exclude_keywords : option (list string)) (s : Sys World) :
  files P inventory_file = Missing ->
  extract_vm_info P host_file exclude_keywords s
  = (Ok (None, Some ("Error: Inventory file '" ++ inventory_file ++ "' not found.")), s).
Proof. intros H. unfold extract_vm_info, path_exists. now rewrite H. Qed.

Lemma extract_vm_info_no_hosts (host_file : string)
    (exclude_keywords : option (list string)) (s : Sys World) :
  files P inventory_file <> Missing ->
  files P host_file = Missing ->
  extract_vm_info P host_file exclude_keywords s
  = (Ok (None, Some ("Error: List file '" ++ host_file ++ "' not found.")), s).
Proof.
  intros Hinv H. unfold extract_vm_info, path_exists. rewrite H.
  now destruct (files P inventory_file).
Qed.

Lemma get_current_user_id_runs (w w' : World) (ttl : Z) (out err : string) (rc : Z)
    (evs : list event) :
  runs (run_az_command P "az account show --query user.name -o tsv" 3 5) w ttl
    (Ok (out, err, rc)) w' evs ->
  runs (get_current_user_id P) w ttl
    (Ok (if negb (rc =? 0)%Z then None else Some (PyStr.strip out))) w'
    (evs ++ if negb (rc =? 0)%Z
            then [Printed ("Failed to get current user ID. Error: " ++ err)]
            else [])%list.
Proof.
  intros Hruns t. unfold get_current_user_id, run_az.
  erewrite bind_step by (apply Hruns). cbn beta iota.
  destruct (negb (rc =? 0)%Z).
  - step. unfold ret. cbn [world TTL_DURATION trace]. now rewrite <- app_assoc.
  - unfold ret. now rewrite app_nil_r.
Qed.

Variables (host_file chg_number : string) (ttl_duration : Z).
Variable exclude_keywords : option (list string).

Let run : M World response := main P host_file chg_number ttl_duration exclude_keywords.

Let identity_query : string := "az account show --query user.name -o tsv".

(** [main] up to the answer of the identity query. *)
Ltac to_identity Hruns :=
  unfold main_run;
  erewrite bind_step by reflexivity;
  do 5 step; cbn [world TTL_DURATION trace];
  erewrite bind_step by (apply (get_current_user_id_runs _ _ _ _ _ _ _ Hruns)).

(** The answer of the identity query in the state where [main] asks it. *)
Ltac identity_answer s Hrun w' evs Hruns Hevs :=
  let r := fresh "r" in
  destruct (run_az_command_runs P identity_query 3 5 (world s) ttl_duration)
    as (r & w' & evs & Hruns & Hevs);
  unfold run_az in Hrun; rewrite (Hruns (trace s)) in Hrun; cbn [fst] in Hrun; subst r.

(** The events of a state are those of [s] followed by events that spawn
    nothing but the identity query. *)
Ltac only_identity Hevs :=
  cbn [trace]; rewrite <- ?app_assoc; eexists; split; [reflexivity|];
  rewrite ?spawns_app; cbn [spawns app]; rewrite ?app_nil_r;
  try (apply Forall_app; split; [|constructor]);
  now apply executor_events_spawns.

(** X17: without an authenticated user the run stops at once.  When the
    identity query fails after the retries, or answers with an empty name,
    [main] returns the error "Failed to retrieve user ID ..." and has
    spawned nothing but that query. *)
Theorem unauthenticated_run_stops (s : Sys World) (out err : string) (rc : Z) :
  fst (run_az P identity_query (mkSys (world s) ttl_duration (trace s))) = Ok (out, err, rc) ->
  rc <> 0%Z \/ PyStr.strip out = "" ->
  exists s',
    run s
    = (Ok (ErrorResponse
             "Failed to retrieve user ID from Azure CLI. Ensure you are logged in with 'az login'."),
       s')
    /\ exists evs, trace s' = (trace s ++ evs)%list /\ Forall (eq identity_query) (spawns evs).
Proof.
  intros Hrun Hbad. unfold run. identity_answer s Hrun w' evs Hruns Hevs.
  destruct (Z.eqb_spec rc 0) as [E|E].
  - destruct Hbad as [Hbad|Hempty]; [contradiction|]. subst rc.
    eexists. split.
    + apply main_of_error. to_identity Hruns.
      cbn [Z.eqb negb]. rewrite Hempty. reflexivity.
    + cbn [Z.eqb negb]. only_identity Hevs.
  - apply Z.eqb_neq in E. eexists. split.
    + apply main_of_error. to_identity Hruns. rewrite E. reflexivity.
    + rewrite ?E. cbn [negb]. only_identity Hevs.
Qed.

Lemma spawns_warnings (hostnames : list string) : spawns (map warning hostnames) = [].
Proof. induction hostnames as [|h rest IH]; [reflexivity | exact IH]. Qed.

Lemma spawns_exclusion_notice (excluded_vms : list string) :
  spawns (exclusion_notice excluded_vms) = [].
Proof. now destruct excluded_vms. Qed.

(** X18: with an authenticated user, the run still stops before any
    subscription is touched when there is nothing to snapshot: [main]
    returns the message of the resolver when the inventory or the host list
    is missing (the inventory is looked for first), and
    "No valid VM information found." when no host name resolves to a VM.  In
    each case nothing but the identity query has been spawned. *)
Theorem unresolved_run_stops (s : Sys World) (out err : string) :
  fst (run_az P identity_query (mkSys (world s) ttl_duration (trace s))) = Ok (out, err, 0%Z) ->
  PyStr.truthy (PyStr.strip out) = true ->
  let stops_with (message : string) :=
    exists s',
      run s = (Ok (ErrorResponse message), s')
      /\ exists evs, trace s' = (trace s ++ evs)%list
                     /\ Forall (eq identity_query) (spawns evs) in
  (files P inventory_file = Missing ->
   stops_with ("Error: Inventory file '" ++ inventory_file ++ "' not found."))
  /\ (files P inventory_file <> Missing ->
      files P host_file = Missing ->
      stops_with ("Error: List file '" ++ host_file ++ "' not found."))
  /\ (forall inventory hosts,
        files P inventory_file = Text inventory ->
        files P host_file = Text hosts ->
        resolved exclude_keywords (PyStr.readlines inventory) (PyStr.splitlines hosts) = [] ->
        stops_with "No valid VM information found.").
Proof.
  intros Hrun Htruthy stops_with. unfold stops_with, run.
  identity_answer s Hrun w' evs Hruns Hevs.
  split; [|split].
  - intros Hinv. eexists. split.
    + apply main_of_error. to_identity Hruns. cbn [Z.eqb negb]. rewrite Htruthy. cbn [negb].
      step. erewrite bind_step by (now apply extract_vm_info_no_inventory).
      reflexivity.
    + cbn [Z.eqb negb]. only_identity Hevs.
  - intros Hinv Hhost. eexists. split.
    + apply main_of_error. to_identity Hruns. cbn [Z.eqb negb]. rewrite Htruthy. cbn [negb].
      step. erewrite bind_step by (now apply extract_vm_info_no_hosts).
      reflexivity.
    + cbn [Z.eqb negb]. only_identity Hevs.
  - intros inventory hosts Hinv Hhost Hres. eexists. split.
    + apply main_of_error. to_identity Hruns. cbn [Z.eqb negb]. rewrite Htruthy. cbn [negb].
      step. erewrite bind_step by (apply (extract_vm_info_spec P _ _ _ _ _ Hinv Hhost)).
      rewrite Hres. reflexivity.
    + cbn [Z.eqb negb trace world TTL_DURATION]. rewrite <- ?app_assoc.
      eexists. split; [reflexivity|].
      rewrite ?spawns_app, spawns_warnings, spawns_exclusion_notice.
      cbn [spawns app]. rewrite ?app_nil_r. now apply executor_events_spawns.
Qed.

Lemma main_run_paths (s s' : Sys World) (r : Run) :
  main_run P host_file chg_number ttl_duration exclude_keywords s = (Ok (inr r), s') ->
  log_file r = "logs/snapshot_creation_log_" ++ now_compact P (world s) ++ ".txt"
  /\ summary_file r = "logs/snapshot_summary_" ++ now_compact P (world s) ++ ".txt"
  /\ 1 <= total_vms r.
Proof.
  unfold main_run. intros H.
  bind_inv_as H u1 s1 H1. bind_inv_as H u2 s2 H2. bind_inv_as H ts s3 H3.
  bind_inv_as H u4 s4 H4. bind_inv_as H ttl s5 H5. bind_inv_as H u6 s6 H6.
  bind_inv_as H user s7 H7.
  unfold set_TTL_DURATION in H1. injection H1 as _ <-.
  unfold emit in H2. injection H2 as _ <-.
  unfold clock in H3. injection H3 as <- <-. cbn [world] in *.
  destruct user as [user|]; [|discriminate].
  destruct (negb (PyStr.truthy user)); [discriminate|].
  bind_inv_as H u8 s8 H8. bind_inv_as H resolution s9 H9.
  destruct resolution as [vm_list error].
  destruct (match error with Some error => PyStr.truthy error | None => false end);
    [discriminate|].
  destruct vm_list as [[|line vm_list]|]; try discriminate.
  bind_inv_as H grouped s10 H10. bind_inv_as H lists s11 H11. destruct lists as [succ failed].
  unfold ret in H. injection H as <- _. cbn. repeat split. lia.
Qed.

Lemma write_items_events (path : string) (items : outcomes) :
  forall s : Sys World,
  exists evs,
    write_items path items s = (Ok tt, mkSys (world s) (TTL_DURATION s) (trace s ++ evs)%list)
    /\ Forall (fun e => exists text, e = Written path text) evs.
Proof.
  induction items as [|[vm text] rest IH]; intros s; cbn [write_items].
  - exists []. split; [|constructor]. unfold ret. rewrite app_nil_r. now destruct s.
  - step. match goal with |- context [write_items path rest ?s1] =>
            destruct (IH s1) as (evs & Heq & Hevs) end.
    rewrite Heq. cbn [world TTL_DURATION trace]. eexists. split.
    + rewrite <- app_assoc. reflexivity.
    + constructor; [eauto | exact Hevs].
Qed.

Lemma write_summary_events (r : Run) (s : Sys World) :
  exists evs,
    write_summary r s
    = (Ok tt, mkSys (world s) (TTL_DURATION s)
                (trace s ++ Created (summary_file r) :: evs)%list)
    /\ Forall (fun e => exists text, e = Written (summary_file r) text) evs.
Proof.
  unfold write_summary. do 9 step. cbn [world TTL_DURATION trace].
  match goal with |- context [bind (write_items ?f ?items) _ ?s1] =>
    destruct (write_items_events f items s1) as (evs1 & Heq1 & Hevs1) end.
  erewrite bind_step by exact Heq1. step.
  match goal with |- context [write_items ?f ?items ?s1] =>
    destruct (write_items_events f items s1) as (evs2 & Heq2 & Hevs2) end.
  rewrite Heq2. cbn [world TTL_DURATION trace]. eexists. split.
  - rewrite <- !app_assoc. cbn [app]. reflexivity.
  - repeat (constructor; [eauto|]). apply Forall_app. split; [exact Hevs1|].
    constructor; [eauto | exact Hevs2].
Qed.

(** X19: a report names the files of the run.  The log and the summary are
    in [logs], named after the time at which the run started, the registry
    is [snap_rid_list.txt], at least one VM was processed, and the summary
    is the last thing the run does: it is created and only written to from
    then on. *)
Theorem report_locations (s s' : Sys World) (total successful failed : nat)
    (log summary registry : string) :
  run s = (Ok (Report total successful failed log summary registry), s') ->
  log = "logs/snapshot_creation_log_" ++ now_compact P (world s) ++ ".txt"
  /\ summary = "logs/snapshot_summary_" ++ now_compact P (world s) ++ ".txt"
  /\ registry = "snap_rid_list.txt"
  /\ 1 <= total
  /\ exists before after,
      trace s' = (before ++ Created summary :: after)%list
      /\ Forall (fun e => exists text, e = Written summary text) after.
Proof.
  unfold run, main. intros H. bind_inv_as H r s1 Hr. destruct r as [error|r].
  - discriminate.
  - destruct (main_run_paths _ _ _ Hr) as (Hlog & Hsum & Htotal).
    destruct (write_summary_events r s1) as (evs & Heq & Hevs).
    rewrite (bind_step _ _ _ _ _ Heq) in H. unfold ret in H.
    injection H as <- _ _ <- <- <- <-.
    repeat split; trivial.
    exists (trace s1), evs. now split.
Qed.

End OrchestratorOutcomes.

Lemma detail_failure_fails_vm_witness :
  (1 <> 0)%Z
  /\ exists s' evs,
      fetch_details Cases.show_fails "123" "20240101000000" "logs/run.txt" "alice"
        [("/subscriptions/S1/rg/vm1", "vm1")] [] [] Scenario.start
      = fetch_details Cases.show_fails "123" "20240101000000" "logs/run.txt" "alice"
          [] [] ([] ++ [("vm1", "Failed to get VM details")])%list s'
      /\ trace s' = (trace Scenario.start ++ evs)%list
      /\ Forall (eq (vm_show_command "/subscriptions/S1/rg/vm1")) (spawns evs).
Proof.
  split; [discriminate|].
  destruct (detail_failure_fails_vm Cases.show_fails "123" "20240101000000" "logs/run.txt"
              "alice" "/subscriptions/S1/rg/vm1" "vm1" [] [] [] Scenario.start
              "" "not authorized" 1%Z eq_refl ltac:(discriminate))
    as (s' & evs & Hloop & Halone).
  exists s', evs. split; [exact Hloop|]. exact (Halone eq_refl).
Defined.

Lemma unauthenticated_run_stops_witness :
  (1 <> 0)%Z
  /\ exists s',
      main Cases.logged_out "hosts.txt" "123" 7 None Scenario.start
      = (Ok (ErrorResponse
               "Failed to retrieve user ID from Azure CLI. Ensure you are logged in with 'az login'."),
         s')
      /\ exists evs,
          trace s' = (trace Scenario.start ++ evs)%list
          /\ Forall (eq "az account show --query user.name -o tsv") (spawns evs).
Proof.
  split; [discriminate|].
  apply (unauthenticated_run_stops Cases.logged_out "hosts.txt" "123" 7 None Scenario.start
           "" "Please run 'az login'" 1%Z);
    [reflexivity | left; discriminate].
Defined.

Lemma unresolved_run_stops_witness :
  (exists s',
      main Cases.no_inventory "hosts.txt" "123" 7 None Scenario.start
      = (Ok (ErrorResponse ("Error: Inventory file '" ++ inventory_file ++ "' not found.")), s')
      /\ exists evs,
          trace s' = (trace Scenario.start ++ evs)%list
          /\ Forall (eq "az account show --query user.name -o tsv") (spawns evs))
  /\ (exists s',
        main Scenario.all_well "elsewhere.txt" "123" 7 None Scenario.start
        = (Ok (ErrorResponse ("Error: List file '" ++ "elsewhere.txt" ++ "' not found.")), s')
        /\ exists evs,
            trace s' = (trace Scenario.start ++ evs)%list
            /\ Forall (eq "az account show --query user.name -o tsv") (spawns evs))
  /\ (exists s',
        main Cases.strangers "hosts.txt" "123" 7 None Scenario.start
        = (Ok (ErrorResponse "No valid VM information found."), s')
        /\ exists evs,
            trace s' = (trace Scenario.start ++ evs)%list
            /\ Forall (eq "az account show --query user.name -o tsv") (spawns evs)).
Proof.
  split; [|split].
  - apply (proj1 (unresolved_run_stops Cases.no_inventory "hosts.txt" "123" 7 None
                    Scenario.start "alice" "" eq_refl eq_refl)).
    reflexivity.
  - apply (proj1 (proj2 (unresolved_run_stops Scenario.all_well "elsewhere.txt" "123" 7 None
                           Scenario.start "alice" "" eq_refl eq_refl))).
    + discriminate.
    + reflexivity.
  - apply (proj2 (proj2 (unresolved_run_stops Cases.strangers "hosts.txt" "123" 7 None
                           Scenario.start "alice" "" eq_refl eq_refl))
             Scenario.inventory_2 ("vm8" ++ Scenario.LF ++ "vm9" ++ Scenario.LF));
      reflexivity.
Defined.

Lemma report_locations_witness :
  exists (s' : Sys unit) (total successful failed : nat) (log summary registry : string),
    main Scenario.all_well "hosts.txt" "123" 7 None Scenario.start
    = (Ok (Report total successful failed log summary registry), s')
    /\ log = "logs/snapshot_creation_log_" ++ "20240101000000" ++ ".txt"
    /\ summary = "logs/snapshot_summary_" ++ "20240101000000" ++ ".txt"
    /\ registry = "snap_rid_list.txt"
    /\ 1 <= total
    /\ exists before after,
        trace s' = (before ++ Created summary :: after)%list
        /\ Forall (fun e => exists text, e = Written summary text) after.
Proof.
  do 7 eexists. split; [vm_compute; reflexivity|].
  eapply (report_locations Scenario.all_well "hosts.txt" "123" 7 None Scenario.start).
  vm_compute. reflexivity.
Defined.

(** ** Orchestrator: every VM is reported once, and the global TTL *)

Section Accounting.

Context {World : Type} (P : Platform World).

#[local] Arguments String.append : simpl never.

Lemma ensures_ret {A : Type} (a : A) (Q : A -> Prop) : Q a -> ensures (@ret World A a) Q.
Proof. intros H s. split; [reflexivity|]. cbn. now intros ? [= <-]. Qed.

Lemma ensures_raise {A : Type} (e : exn) (Q : A -> Prop) : ensures (@raise World A e) Q.
Proof. intros s. split; [reflexivity|]. cbn. discriminate. Qed.

Lemma ensures_bind {A B : Type} (m : M World A) (f : A -> M World B)
    (Q1 : A -> Prop) (Q2 : B -> Prop) :
  ensures m Q1 -> (forall a, Q1 a -> ensures (f a) Q2) -> ensures (bind m f) Q2.
Proof.
  intros Hm Hf s. unfold bind. destruct (Hm s) as [Httl HQ].
  destruct (m s) as [[a|e] s1]; cbn [fst snd] in *.
  - destruct (Hf a (HQ a eq_refl) s1) as [Httl2 HQ2]. split; [congruence | exact HQ2].
  - split; [exact Httl | discriminate].
Qed.

Lemma ensures_any {A : Type} (m : M World A) (Q : A -> Prop) :
  ensures m Q -> ensures m (fun _ => True).
Proof. intros H s. split; [apply H | trivial]. Qed.

Lemma ensures_weaken {A : Type} (m : M World A) (Q1 Q2 : A -> Prop) :
  ensures m Q1 -> (forall a, Q1 a -> Q2 a) -> ensures m Q2.
Proof. intros H HQ s. destruct (H s) as [Httl Hq]. split; [exact Httl | auto]. Qed.

Lemma ensures_emit (e : event) : ensures (@emit World e) (fun _ => True).
Proof. intros s. split; [reflexivity | trivial]. Qed.

Lemma ensures_write_log (log_file message : string) :
  ensures (write_log P log_file message false) (fun _ => True).
Proof. intros s. rewrite write_log_eq. split; [reflexivity | trivial]. Qed.

Lemma ensures_clock {A : Type} (f : World -> A) : ensures (clock f) (fun _ => True).
Proof. intros s. split; [reflexivity | trivial]. Qed.

Lemma ensures_get_TTL_DURATION : ensures (@get_TTL_DURATION World) (fun _ => True).
Proof. intros s. split; [reflexivity | trivial]. Qed.

Lemma ensures_lift {A : Type} (r : result A) : ensures (@lift World A r) (fun a => r = Ok a).
Proof.
  intros s. destruct r as [a|e]; cbn; (split; [reflexivity|]).
  - now intros ? [= <-].
  - discriminate.
Qed.

Lemma ensures_loads (text : string) : ensures (loads P text) (fun _ => True).
Proof. unfold loads. destruct (json_loads P text); intros s; split; trivial. Qed.

Lemma ensures_run_az (command : string) : ensures (run_az P command) (fun _ => True).
Proof.
  intros s. destruct (run_az_command_runs P command 3 5 (world s) (TTL_DURATION s))
    as (r & w' & evs & Hruns & _).
  unfold run_az. rewrite (runs_at _ _ _ _ _ Hruns). split; [reflexivity | trivial].
Qed.

Ltac estep :=
  eapply ensures_bind;
  [ first [ apply ensures_write_log | apply ensures_emit | apply ensures_clock
          | apply ensures_get_TTL_DURATION | apply ensures_loads | apply ensures_run_az
          | apply ensures_lift ]
  | intros ? _ ].

(** The worker reports under the name of the VM it was created for. *)
Lemma process_vm_reports (resource_id vm_name : string) (resource_group disk_id : json)
    (chg_number timestamp log_file user_id : string) :
  ensures (process_vm P resource_id vm_name resource_group disk_id
             chg_number timestamp log_file user_id) (fun r => fst r = vm_name).
Proof.
  unfold process_vm. do 7 estep.
  match goal with a : string * string * Z |- _ => destruct a as [[out err] rc] end.
  destruct (negb (rc =? 0)%Z).
  - do 2 estep. now apply ensures_ret.
  - do 5 estep.
    match goal with a : option json |- _ => destruct a as [id|] end.
    + destruct (json_truthy id).
      * unfold write_snapshot_rid. do 2 estep. now apply ensures_ret.
      * estep. now apply ensures_ret.
    + estep. now apply ensures_ret.
Qed.

Lemma fetch_details_reports (chg_number timestamp log_file user_id : string)
    (vms : list (string * string)) :
  forall (tasks : list (M World (string * string))) (failed : outcomes) (names : list string),
    report_as tasks names ->
    ensures (fetch_details P chg_number timestamp log_file user_id vms tasks failed)
      (fun r => exists names',
                  report_as (fst r) names'
                  /\ Permutation (names' ++ map fst (snd r))
                       (names ++ map fst failed ++ map snd vms)).
Proof.
  induction vms as [|[resource_id vm_name] rest IH]; intros tasks failed names Htasks;
    cbn [fetch_details].
  - apply ensures_ret. exists names. split; [exact Htasks|].
    cbn [fst snd map]. now rewrite app_nil_r.
  - estep. match goal with a : string * string * Z |- _ => destruct a as [[out err] rc] end.
    destruct (negb (rc =? 0)%Z).
    + do 2 estep. eapply ensures_weaken; [apply (IH _ _ names Htasks)|].
      intros r (names' & Hn & Hperm). exists names'. split; [exact Hn|].
      rewrite Hperm, map_app, <- app_assoc. reflexivity.
    + do 3 estep. eapply ensures_weaken.
      * apply IH with (names := (names ++ [vm_name])%list).
        apply Forall2_app; [exact Htasks|]. constructor; [|constructor].
        apply process_vm_reports.
      * intros r (names' & Hn & Hperm). exists names'. split; [exact Hn|].
        rewrite Hperm, <- app_assoc. apply Permutation_app_head. cbn [app map snd].
        apply Permutation_cons_app. reflexivity.
Qed.

Lemma gather_reports (tasks : list (M World (string * string))) (names : list string) :
  report_as tasks names ->
  ensures (gather tasks) (fun results => map fst results = names).
Proof.
  induction 1 as [|task name tasks names Htask _ IH]; cbn [gather].
  - now apply ensures_ret.
  - eapply ensures_bind; [exact Htask|]. intros r Hr.
    eapply ensures_bind; [exact IH|]. intros rs Hrs.
    apply ensures_ret. cbn. now rewrite Hr, Hrs.
Qed.

Lemma collect_names (results : outcomes) :
  forall succ failed : outcomes,
    Permutation
      (map fst (fst (collect results succ failed)) ++ map fst (snd (collect results succ failed)))
      (map fst succ ++ map fst failed ++ map fst results).
Proof.
  induction results as [|[vm_name result] rest IH]; intros succ failed; cbn [collect].
  - cbn. now rewrite app_nil_r.
  - destruct (negb (PyStr.contains "Failed" result)); rewrite IH, map_app; cbn [map fst].
    + rewrite <- app_assoc. apply Permutation_app_head. cbn [app].
      apply Permutation_cons_app. reflexivity.
    + rewrite <- !app_assoc. reflexivity.
Qed.

Lemma process_group_reports (chg_number timestamp log_file user_id : string)
    (group : string * list (string * string)) (succ failed : outcomes) :
  ensures (process_group P chg_number timestamp log_file user_id group succ failed)
    (fun r => Permutation (map fst (fst r) ++ map fst (snd r))
                (map fst succ ++ map fst failed ++ map snd (snd group))).
Proof.
  destruct group as [subscription_id vms]. unfold process_group. estep.
  match goal with a : string * string * Z |- _ => destruct a as [[out err] rc] end.
  destruct (negb (rc =? 0)%Z).
  - do 2 estep. apply ensures_ret. cbn [fst snd]. now rewrite map_app, map_map.
  - estep. eapply ensures_bind; [apply (fetch_details_reports _ _ _ _ _ [] failed []); constructor|].
    intros [tasks failed1] (names & Hnames & Hperm). cbn [fst snd app] in *.
    eapply ensures_bind; [apply (gather_reports _ _ Hnames)|]. intros results Hresults.
    apply ensures_ret. rewrite collect_names, Hresults. cbn [snd].
    apply Permutation_app_head. rewrite <- Hperm. apply Permutation_app_comm.
Qed.

Lemma process_groups_reports (chg_number timestamp log_file user_id : string)
    (grouped_vms : grouping) :
  forall succ failed : outcomes,
    ensures (process_groups P chg_number timestamp log_file user_id grouped_vms succ failed)
      (fun r => Permutation (map fst (fst r) ++ map fst (snd r))
                  (map fst succ ++ map fst failed ++ group_names grouped_vms)).
Proof.
  induction grouped_vms as [|group rest IH]; intros succ failed; cbn [process_groups].
  - apply ensures_ret. cbn. now rewrite app_nil_r.
  - eapply ensures_bind; [apply process_group_reports|].
    intros [succ1 failed1] Hperm. cbn [fst snd] in Hperm.
    intros s. destruct (IH succ1 failed1 s) as [Httl HQ]. split; [exact Httl|].
    intros r Hr. rewrite (HQ r Hr). unfold group_names. cbn [flat_map].
    rewrite !app_assoc. apply Permutation_app_tail. rewrite <- !app_assoc. exact Hperm.
Qed.

Lemma dict_append_names (key : string) (v : string * string) (g : grouping) :
  Permutation (group_names (dict_append key v g)) (group_names g ++ [snd v]).
Proof.
  unfold group_names. induction g as [|[k0 vs] g IH]; cbn [dict_append flat_map].
  - reflexivity.
  - destruct (String.eqb k0 key); cbn [flat_map snd].
    + rewrite map_app. cbn [map]. rewrite <- !app_assoc. apply Permutation_app_head.
      apply Permutation_app_comm.
    + rewrite IH. now rewrite app_assoc.
Qed.

Lemma group_loop_names (vm_list : list string) :
  forall g0 g,
    group_loop vm_list g0 = Ok g ->
    Permutation (group_names g) (group_names g0 ++ vm_names vm_list).
Proof.
  induction vm_list as [|line rest IH]; intros g0 g H; cbn [group_loop] in H.
  - injection H as <-. cbn. now rewrite app_nil_r.
  - unfold vm_names. cbn [flat_map]. fold (vm_names rest). unfold parse_record.
    destruct (PyStr.split_ws line) as [|rid [|name [|x xs]]]; try discriminate.
    destruct (nth_error (PyStr.split_on "/" rid) 2) as [sub|]; [|discriminate].
    rewrite (IH _ _ H), dict_append_names, <- app_assoc. reflexivity.
Qed.

(** X20: no VM is lost and none is reported twice.  In a run that reaches
    its end, the names in the succeeded list and in the failed list are,
    taken together, the VM names of the resolved inventory lines, each as
    often as it was resolved. *)
Theorem every_vm_reported_once (host_file chg_number : string) (ttl_duration : Z)
    (exclude_keywords : option (list string)) (inventory hosts : string)
    (s s' : Sys World) (run : Run) :
  files P inventory_file = Text inventory ->
  files P host_file = Text hosts ->
  main_run P host_file chg_number ttl_duration exclude_keywords s = (Ok (inr run), s') ->
  Permutation
    (map fst (successful_snapshots run) ++ map fst (failed_snapshots run))
    (vm_names (resolved exclude_keywords (PyStr.readlines inventory) (PyStr.splitlines hosts))).
Proof.
  intros Hinv Hhost Hrun.
  destruct (main_run_inv P _ _ _ _ _ _ _ Hrun)
    as (vm_list & error & grouped & user_id & s1 & s2 & s3 & Hextract & Hg & Hloop & _).
  rewrite (extract_vm_info_spec P _ _ _ _ s1 Hinv Hhost) in Hextract.
  injection Hextract as <- _ _.
  destruct (process_groups_reports chg_number (now_compact P (world s)) (log_file run) user_id
              grouped [] [] s3) as [_ HQ].
  rewrite Hloop in HQ. specialize (HQ _ eq_refl). cbn [fst snd map app] in HQ.
  rewrite HQ. apply (group_loop_names _ _ _ Hg).
Qed.

Lemma bind_assoc_at {A B C : Type} (m : M World A) (f : A -> M World B) (g : B -> M World C)
    (s : Sys World) :
  bind (bind m f) g s = bind m (fun a => bind (f a) g) s.
Proof. unfold bind. now destruct (m s) as [[a|e] s1]. Qed.

Lemma ensures_get_current_user_id : ensures (get_current_user_id P) (fun _ => True).
Proof.
  unfold get_current_user_id. estep.
  match goal with a : string * string * Z |- _ => destruct a as [[out err] rc] end.
  destruct (negb (rc =? 0)%Z).
  - unfold print. estep. now apply ensures_ret.
  - now apply ensures_ret.
Qed.

Lemma ensures_extract_vm_info (host_file : string) (exclude_keywords : option (list string)) :
  ensures (extract_vm_info P host_file exclude_keywords) (fun _ => True).
Proof.
  intros s. destruct (extract_vm_info_events P host_file exclude_keywords s) as (evs & Heq & _).
  rewrite Heq. split; [reflexivity | trivial].
Qed.

Lemma ensures_write_summary (r : Run) : ensures (@write_summary World r) (fun _ => True).
Proof.
  intros s. destruct (write_summary_events r s) as (evs & Heq & _).
  rewrite Heq. split; [reflexivity | trivial].
Qed.

(** X21: a run overwrites the process-wide [TTL_DURATION] with its own
    [ttl_duration] and nothing sets it back: whether [main] returns a
    report, returns an error or raises, the global holds [ttl_duration]
    afterwards. *)
Theorem main_sets_ttl (host_file chg_number : string) (ttl_duration : Z)
    (exclude_keywords : option (list string)) (s : Sys World) :
  TTL_DURATION (snd (main P host_file chg_number ttl_duration exclude_keywords s))
  = ttl_duration.
Proof.
  unfold main, main_run. rewrite bind_assoc_at.
  erewrite bind_step by reflexivity.
  match goal with
  | |- TTL_DURATION (snd (?m ?s0)) = _ =>
      assert (H : ensures m (fun _ => True)); [|exact (proj1 (H s0))]
  end.
  eapply ensures_bind with (Q1 := fun _ => True).
  - do 5 estep. eapply ensures_bind; [apply ensures_get_current_user_id|].
    intros [user_id|] _; [|now apply ensures_ret].
    destruct (negb (PyStr.truthy user_id)); [now apply ensures_ret|].
    estep. eapply ensures_bind; [apply ensures_extract_vm_info|].
    intros [vm_list error] _.
    destruct (match error with Some error => PyStr.truthy error | None => false end);
      [now apply ensures_ret|].
    destruct vm_list as [[|line vm_list]|]; try now apply ensures_ret.
    estep. eapply ensures_bind; [eapply ensures_any; apply process_groups_reports|].
    intros [succ failed] _. now apply ensures_ret.
  - intros [error|run] _; [now apply ensures_ret|].
    eapply ensures_bind; [apply ensures_write_summary|]. intros _ _. now apply ensures_ret.
Qed.

End Accounting.

Lemma every_vm_reported_once_witness :
  exists (run : Run) (s' : Sys unit),
    main_run Scenario.two_subscriptions "hosts.txt" "123" 7 None Scenario.start
    = (Ok (inr run), s')
    /\ Permutation
         (map fst (successful_snapshots run) ++ map fst (failed_snapshots run))
         (vm_names (resolved None (PyStr.readlines Scenario.inventory_2)
                      (PyStr.splitlines Scenario.hosts_2))).
Proof.
  eexists. eexists. split; [vm_compute; reflexivity|].
  eapply (every_vm_reported_once Scenario.two_subscriptions "hosts.txt" "123" 7 None
            Scenario.inventory_2 Scenario.hosts_2 Scenario.start).
  - reflexivity.
  - reflexivity.
  - vm_compute. reflexivity.
Defined.

(** ** Text tests of the resolver and of the orchestrator *)

Lemma lower_char_idempotent (c : ascii) :
  PyStr.lower_char (PyStr.lower_char c) = PyStr.lower_char c.
Proof. destruct c as [[] [] [] [] [] [] [] []]; reflexivity. Qed.

Lemma lower_idempotent (s : string) : PyStr.lower (PyStr.lower s) = PyStr.lower s.
Proof.
  induction s as [|c s IH]; cbn [PyStr.lower]; [reflexivity|].
  now rewrite lower_char_idempotent, IH.
Qed.

(** X22: the exclusion test ignores the case of the letters on both sides:
    lowering the keywords and the line beforehand changes nothing. *)
Theorem keyword_hit_ignores_case (keywords : list string) (line : string) :
  keyword_hit (Some (map PyStr.lower keywords)) (PyStr.lower line)
  = keyword_hit (Some keywords) line.
Proof.
  cbn [keyword_hit]. rewrite lower_idempotent.
  induction keywords as [|k rest IH]; cbn [map existsb]; [reflexivity|].
  now rewrite lower_idempotent, IH.
Qed.

Lemma prefix_append (needle rest : string) : String.prefix needle (needle ++ rest) = true.
Proof.
  induction needle as [|c needle IH]; cbn; [now destruct rest|].
  now destruct (ascii_dec c c).
Qed.

Lemma contains_inside (needle before after : string) :
  PyStr.contains needle (before ++ needle ++ after) = true.
Proof.
  induction before as [|c before IH].
  - cbn [String.append]. destruct (needle ++ after) eqn:E; cbn [PyStr.contains];
      rewrite <- E, prefix_append; reflexivity.
  - cbn [String.append PyStr.contains]. rewrite IH. apply orb_true_r.
Qed.

Lemma prefix_split (needle hay : string) :
  String.prefix needle hay = true -> exists after, hay = needle ++ after.
Proof.
  revert hay. induction needle as [|c needle IH]; intros hay H.
  - now exists hay.
  - destruct hay as [|d hay]; cbn in H; [discriminate|].
    destruct (ascii_dec c d) as [->|]; [|discriminate].
    destruct (IH hay H) as (after & ->). now exists after.
Qed.

Lemma contains_split (needle hay : string) :
  PyStr.contains needle hay = true -> exists before after, hay = before ++ needle ++ after.
Proof.
  induction hay as [|c hay IH]; cbn [PyStr.contains]; intros H.
  - rewrite orb_false_r in H. destruct (prefix_split _ _ H) as (after & ->).
    now exists "", after.
  - apply orb_prop in H as [H|H].
    + destruct (prefix_split _ _ H) as (after & ->). now exists "", after.
    + destruct (IH H) as (before & after & ->). now exists (String c before), after.
Qed.

Lemma append_assoc (a b c : string) : (a ++ b) ++ c = a ++ b ++ c.
Proof. induction a as [|x a IH]; cbn; [reflexivity | now rewrite IH]. Qed.

(** X23: the word "Failed" in the name of a VM, or in the change number,
    is enough for the orchestrator to put the VM in the failed list, even
    with the snapshot name as the result of the worker, that is, after the
    snapshot was created. *)
Theorem failed_in_name_classified_failed (chg_number vm_name timestamp : string)
    (succ failed : outcomes) :
  PyStr.contains "Failed" vm_name = true \/ PyStr.contains "Failed" chg_number = true ->
  collect [(vm_name, snapshot_name_of chg_number vm_name timestamp)] succ failed
  = (succ, (failed ++ [(vm_name, snapshot_name_of chg_number vm_name timestamp)])%list).
Proof.
  intros H.
  assert (Hname : PyStr.contains "Failed" (snapshot_name_of chg_number vm_name timestamp) = true).
  { unfold snapshot_name_of. destruct H as [H|H];
      destruct (contains_split _ _ H) as (before & after & ->).
    - replace ("RH_" ++ chg_number ++ "_" ++ (before ++ "Failed" ++ after) ++ "_" ++ timestamp)
        with (("RH_" ++ chg_number ++ "_" ++ before) ++ "Failed" ++ (after ++ "_" ++ timestamp))
        by (now rewrite !append_assoc).
      apply contains_inside.
    - replace ("RH_" ++ (before ++ "Failed" ++ after) ++ "_" ++ vm_name ++ "_" ++ timestamp)
        with (("RH_" ++ before) ++ "Failed" ++ (after ++ "_" ++ vm_name ++ "_" ++ timestamp))
        by (now rewrite !append_assoc).
      apply contains_inside. }
  cbn [collect]. now rewrite Hname.
Qed.

Lemma failed_in_name_classified_failed_witness :
  PyStr.contains "Failed" "FailedoverDB" = true
  /\ collect [("FailedoverDB", snapshot_name_of "123" "FailedoverDB" "20240101000000")] [] []
     = ([], ([] ++ [("FailedoverDB", snapshot_name_of "123" "FailedoverDB" "20240101000000")])%list).
Proof.
  split; [reflexivity|].
  apply (failed_in_name_classified_failed "123" "FailedoverDB" "20240101000000" [] []).
  left. reflexivity.
Defined.
